(** * whatsapp-qms: the webhook receiver of [app.js], the message
    normaliser of [services/message.js] and the client of
    [services/graph-api.js]

    A shallow embedding of the source files and the properties of the
    specification that concern them.

    - [Crypto]: HMAC-SHA256 with a hexadecimal digest, the one call the
      verifier makes into Node's [crypto] module
      ([crypto.createHmac("sha256", key).update(buf).digest("hex")]).
    - [Js]: the JavaScript values the program sees (parsed JSON plus
      [undefined]), property reads, truthiness, [Array.prototype.forEach],
      and the monad of the embedding: a log of the observable calls together
      with a normal or abrupt completion.
    - [Message]: the constructor of [class Message].
    - [JsString]: [substring] on UTF-16 code units.
    - [Query]: the values of [req.query] and the comparison [!=] on them.
    - [App]: [verifyRequestSignature], the body parsers in front of the
      POST route, and the GET and POST [/webhook] routes.
    - [GraphApi]: [#makeApiCall] and the public methods of the client, over
      a remote API given as a transition function.

    Strings are held as bytes: the raw request body and a header value as
    Node hands them to [crypto], a secret and any other text in its UTF-8
    form.  Of the console, the [warn] and [error] calls of the verifier are
    kept (one of them evaluates an expression that can throw); the
    [console.log] lines of the routes, which print the time and the payload,
    are left out. *)

From Stdlib Require Import ZArith List String Ascii Bool Lia.
From Stdlib Require Import Floats.SpecFloat.
Import ListNotations.

Local Open Scope string_scope.
Local Open Scope list_scope.
Local Open Scope Z_scope.

(* ================================================================== *)
(** ** HMAC-SHA256 (FIPS 180-4, RFC 2104) over 32-bit words held in [Z] *)
(* ================================================================== *)

Module Crypto.

Definition mask32 : Z := 0xffffffff.

(** Addition modulo 2^32. *)
Definition add32 (a b : Z) : Z := Z.land (a + b) mask32.

Definition rotr (n x : Z) : Z :=
  Z.land (Z.lor (Z.shiftr x n) (Z.shiftl x (32 - n))) mask32.

Definition not32 (x : Z) : Z := Z.lxor x mask32.

Definition Ch (x y z : Z) : Z := Z.lxor (Z.land x y) (Z.land (not32 x) z).

Definition Maj (x y z : Z) : Z :=
  Z.lxor (Z.lxor (Z.land x y) (Z.land x z)) (Z.land y z).

Definition Sigma0 (x : Z) : Z :=
  Z.lxor (Z.lxor (rotr 2 x) (rotr 13 x)) (rotr 22 x).

Definition Sigma1 (x : Z) : Z :=
  Z.lxor (Z.lxor (rotr 6 x) (rotr 11 x)) (rotr 25 x).

Definition sigma0 (x : Z) : Z :=
  Z.lxor (Z.lxor (rotr 7 x) (rotr 18 x)) (Z.shiftr x 3).

Definition sigma1 (x : Z) : Z :=
  Z.lxor (Z.lxor (rotr 17 x) (rotr 19 x)) (Z.shiftr x 10).

(** The constants of FIPS 180-4 are fractional parts of roots of the first
    primes: 32 bits of the cube root for the round constants, 32 bits of
    the square root for the initial hash value. *)
Definition is_prime (n : Z) : bool :=
  forallb (fun d => negb (n mod d =? 0))
          (map Z.of_nat (seq 2 (Z.to_nat (Z.sqrt n) - 1))).

Definition primes_below (bound : nat) : list Z :=
  filter is_prime (map Z.of_nat (seq 2 (bound - 2))).

(** The integer cube root, found bit by bit from bit [bits - 1] down. *)
Fixpoint cube_root (bits : nat) (n acc : Z) : Z :=
  match bits with
  | O => acc
  | S b =>
      let candidate := acc + 2 ^ Z.of_nat b in
      if candidate * candidate * candidate <=? n
      then cube_root b n candidate
      else cube_root b n acc
  end.

Definition K : list Z :=
  Eval vm_compute in
    map (fun p => Z.land (cube_root 40 (p * 2 ^ 96) 0) mask32) (primes_below 312).

Definition initial_words : list Z :=
  Eval vm_compute in
    map (fun p => Z.land (Z.sqrt (p * 2 ^ 64)) mask32) (primes_below 20).

(** Bytes are integers in 0..255. *)
Definition bytes_of_string (s : string) : list Z :=
  map (fun c => Z.of_N (N_of_ascii c)) (list_ascii_of_string s).

(** The [n] low bytes of [x], most significant first. *)
Fixpoint be_bytes (n : nat) (x : Z) : list Z :=
  match n with
  | O => []
  | S m => Z.land (Z.shiftr x (8 * Z.of_nat m)) 0xff :: be_bytes m x
  end.

(** Padding: the byte 0x80, zero bytes up to 56 modulo 64, and the length in
    bits as a 64-bit big-endian integer. *)
Definition pad (msg : list Z) : list Z :=
  let len := Z.of_nat (List.length msg) in
  let zeros := Z.to_nat ((55 - len) mod 64) in
  msg ++ [0x80] ++ repeat 0 zeros ++ be_bytes 8 (8 * len).

(** Big-endian 32-bit words of a byte sequence whose length is a multiple
    of four. *)
Fixpoint words_of_bytes (fuel : nat) (bs : list Z) : list Z :=
  match fuel, bs with
  | S f, b0 :: b1 :: b2 :: b3 :: rest =>
      Z.lor (Z.shiftl b0 24) (Z.lor (Z.shiftl b1 16) (Z.lor (Z.shiftl b2 8) b3))
      :: words_of_bytes f rest
  | _, _ => []
  end.

(** Message schedule: [extend k w] appends [k] words to the schedule [w]. *)
Fixpoint extend (k : nat) (w : list Z) : list Z :=
  match k with
  | O => w
  | S k' =>
      let t := List.length w in
      let at_ i := nth (t - i) w 0 in
      extend k'
        (w ++ [add32 (add32 (sigma1 (at_ 2%nat)) (at_ 7%nat))
                     (add32 (sigma0 (at_ 15%nat)) (at_ 16%nat))])
  end.

Record state := mkState { sa : Z; sb : Z; sc : Z; sd : Z;
                          se : Z; sf : Z; sg : Z; sh : Z }.

Definition round (s : state) (kw : Z * Z) : state :=
  let t1 := add32 (add32 (add32 (sh s) (Sigma1 (se s)))
                         (add32 (Ch (se s) (sf s) (sg s)) (fst kw))) (snd kw) in
  let t2 := add32 (Sigma0 (sa s)) (Maj (sa s) (sb s) (sc s)) in
  mkState (add32 t1 t2) (sa s) (sb s) (sc s) (add32 (sd s) t1) (se s) (sf s) (sg s).

Definition compress (h : state) (block : list Z) : state :=
  let w := extend 48 block in
  let s := fold_left round (combine K w) h in
  mkState (add32 (sa h) (sa s)) (add32 (sb h) (sb s))
          (add32 (sc h) (sc s)) (add32 (sd h) (sd s))
          (add32 (se h) (se s)) (add32 (sf h) (sf s))
          (add32 (sg h) (sg s)) (add32 (sh h) (sh s)).

Fixpoint blocks (fuel : nat) (ws : list Z) : list (list Z) :=
  match fuel, ws with
  | _, [] => []
  | O, _ => []
  | S f, _ => firstn 16 ws :: blocks f (skipn 16 ws)
  end.

Definition initial : state :=
  let h i := nth i initial_words 0 in
  mkState (h 0%nat) (h 1%nat) (h 2%nat) (h 3%nat)
          (h 4%nat) (h 5%nat) (h 6%nat) (h 7%nat).

(** The 32 bytes of the SHA-256 digest of [msg]. *)
Definition sha256 (msg : list Z) : list Z :=
  let p := pad msg in
  let ws := words_of_bytes (List.length p) p in
  let s := fold_left compress (blocks (List.length ws) ws) initial in
  flat_map (be_bytes 4)
    [sa s; sb s; sc s; sd s; se s; sf s; sg s; sh s].

Definition block_size : nat := 64.

(** RFC 2104: a key longer than the block is hashed first, then padded with
    zero bytes to the block size. *)
Definition hmac_key (key : list Z) : list Z :=
  let k := if Nat.ltb block_size (List.length key) then sha256 key else key in
  k ++ repeat 0 (block_size - List.length k).

Definition hmac_sha256 (key msg : list Z) : list Z :=
  let k := hmac_key key in
  let ipad := map (Z.lxor 0x36) k in
  let opad := map (Z.lxor 0x5c) k in
  sha256 (opad ++ sha256 (ipad ++ msg)).

Definition hex_digit (n : Z) : ascii :=
  ascii_of_N (Z.to_N (if n <? 10 then 48 + n else 87 + n)).

(** [digest("hex")]: two lower-case hexadecimal digits per byte. *)
Fixpoint hex (bs : list Z) : string :=
  match bs with
  | [] => EmptyString
  | b :: rest =>
      String (hex_digit (Z.shiftr b 4)) (String (hex_digit (Z.land b 0xf)) (hex rest))
  end.

(** [crypto.createHmac("sha256", key).update(buf).digest("hex")]. *)
Definition hmac_sha256_hex (key buf : string) : string :=
  hex (hmac_sha256 (bytes_of_string key) (bytes_of_string buf)).

End Crypto.

(* ================================================================== *)
(** ** JavaScript values and effects *)
(* ================================================================== *)

Module Js.

#[local] Set Warnings "-register-all".

(** What [JSON.parse] produces, plus [undefined] (the value of a property
    that is not there).  A number is the IEEE double the parser returns. *)
Inductive value : Type :=
  | VUndefined
  | VNull
  | VBool (b : bool)
  | VNumber (n : spec_float)
  | VString (s : string)
  | VArray (elems : list value)
  | VObject (props : list (string * value)).

(** ToBoolean. *)
Definition truthy (v : value) : bool :=
  match v with
  | VUndefined | VNull => false
  | VBool b => b
  | VNumber (S754_zero _) | VNumber S754_nan => false
  | VNumber _ => true
  | VString s => negb (String.eqb s "")
  | VArray _ | VObject _ => true
  end.

(** [v === s] and [v !== s] for a string [s]. *)
Definition strict_eq_string (v : value) (s : string) : bool :=
  match v with
  | VString t => String.eqb t s
  | _ => false
  end.

Definition strict_ne_string (v : value) (s : string) : bool :=
  negb (strict_eq_string v s).

Inductive error : Type :=
  | Error (message : string)
  | TypeError (message : string)
  | SyntaxError (message : string).

(** The calls of the program that are visible from outside: the console, the
    digest computation, and the four handlers of [services/conversation]. *)
Inductive effect : Type :=
  | console_warn (args : list value)
  | console_error (args : list value)
  | createHmac (key buf : string)
  | handleStatus (senderPhoneNumberId status : value)
  | handleMessage (senderPhoneNumberId rawMessage : value)
  | handleInstagramMessage (businessId messagingEvent : value)
  | handleInstagramStatus (businessId messagingEvent : value).

Inductive completion (A : Type) : Type :=
  | Normal (a : A)
  | Throw (e : error).

Arguments Normal {A} a.
Arguments Throw {A} e.

(** A computation: the effects performed, in order, and how it ended. *)
Definition M (A : Type) : Type := (list effect * completion A)%type.

Definition ret {A} (a : A) : M A := ([], Normal a).

Definition throw {A} (e : error) : M A := ([], Throw e).

Definition perform (e : effect) : M unit := ([e], Normal tt).

Definition bind {A B} (m : M A) (k : A -> M B) : M B :=
  match m with
  | (l, Normal a) => let (l', r) := k a in (l ++ l', r)
  | (l, Throw e) => (l, Throw e)
  end.

Definition trace {A} (m : M A) : list effect := fst m.

Definition outcome {A} (m : M A) : completion A := snd m.

Definition returns {A} (m : M A) : bool :=
  match outcome m with Normal _ => true | Throw _ => false end.

(** The effects that are calls of a handler, and those that compute a
    digest. *)
Definition is_handler_call (e : effect) : bool :=
  match e with
  | handleStatus _ _ | handleMessage _ _
  | handleInstagramMessage _ _ | handleInstagramStatus _ _ => true
  | _ => false
  end.

Definition is_digest (e : effect) : bool :=
  match e with
  | createHmac _ _ => true
  | _ => false
  end.

Definition handler_calls (l : list effect) : list effect :=
  filter is_handler_call l.

Definition digests (l : list effect) : list effect :=
  filter is_digest l.

End Js.

Import Js.

Declare Scope js_scope.
Delimit Scope js_scope with js.
Notation "x <- m ;; k" := (bind m (fun x => k))
  (at level 61, m at next level, right associativity) : js_scope.
Notation "m ;; k" := (bind m (fun _ => k))
  (at level 61, right associativity) : js_scope.
Notation "v === s" := (strict_eq_string v s) (at level 70) : js_scope.
Notation "v !== s" := (strict_ne_string v s) (at level 70) : js_scope.
Local Open Scope js_scope.

Module JsObject.

(** The own property [k] of an object built by [JSON.parse] or by an object
    literal; [undefined] when there is none. *)
Fixpoint own (k : string) (props : list (string * value)) : value :=
  match props with
  | [] => VUndefined
  | (k', v) :: rest => if String.eqb k k' then v else own k rest
  end.

(** The property read [v.k] (or [v[k]]).  Reading from [undefined] or [null]
    is a [TypeError].  On a string, number, boolean or array the names the
    program reads ([id], [text], [body], ...) are neither own nor inherited
    properties, so the read gives [undefined]. *)
Definition get (v : value) (k : string) : M value :=
  match v with
  | VUndefined =>
      throw (TypeError ("Cannot read properties of undefined (reading '" ++ k ++ "')"))
  | VNull =>
      throw (TypeError ("Cannot read properties of null (reading '" ++ k ++ "')"))
  | VObject props => ret (own k props)
  | _ => ret VUndefined
  end.

(** The values from which no property can be read, and the value of a
    property read that does not throw. *)
Definition nullish (v : value) : bool :=
  match v with
  | VUndefined | VNull => true
  | _ => false
  end.

Definition prop (k : string) (v : value) : value :=
  match v with
  | VObject props => own k props
  | _ => VUndefined
  end.

Fixpoint each {A} (f : A -> M unit) (l : list A) : M unit :=
  match l with
  | [] => ret tt
  | x :: rest => f x ;; each f rest
  end.

(** [v.forEach(f)]: only an array has the method; JSON arrays have no
    holes, so the callback runs on every element, in order, until one
    throws. *)
Definition forEach (v : value) (f : value -> M unit) : M unit :=
  match v with
  | VArray elems => each f elems
  | VUndefined | VNull => _ <- get v "forEach" ;; ret tt
  | _ => throw (TypeError "forEach is not a function")
  end.

End JsObject.

Import JsObject.

(* ================================================================== *)
(** ** services/message.js *)
(* ================================================================== *)

Module Message.

(** The fields the constructor assigns.  A field it leaves unassigned reads
    as [undefined]. *)
Record t : Type := mk {
  id : value;
  type : value;
  text : value;
  senderPhoneNumber : value
}.

(** The [if]/[else if] chain that assigns [this.type] and [this.text]. *)
Definition type_and_text (rawMessage : value) : M (value * value) :=
  type <- get rawMessage "type" ;;
  if type === "interactive" then
    interactive <- get rawMessage "interactive" ;;
    button_reply <- get interactive "button_reply" ;;
    reply_id <- get button_reply "id" ;;
    ret (reply_id, VUndefined)
  else
    text <- get rawMessage "text" ;;
    if truthy text then
      body <- get text "body" ;;
      ret (VString "text", if truthy body then body else text)
    else
      message <- get rawMessage "message" ;;
      message_text <- (if truthy message then get message "text" else ret message) ;;
      if truthy message_text then
        (* Instagram format *)
        nested <- get message "text" ;;
        ret (VString "text", nested)
      else
        ret (VString "unknown", VUndefined).

(** [rawMessage.from || (rawMessage.sender ? rawMessage.sender.id : undefined)] *)
Definition sender_of (rawMessage : value) : M value :=
  from <- get rawMessage "from" ;;
  if truthy from then ret from
  else
    sender <- get rawMessage "sender" ;;
    if truthy sender then get sender "id" else ret VUndefined.

(** [new Message(rawMessage)] *)
Definition constructor (rawMessage : value) : M t :=
  id <- get rawMessage "id" ;;
  resolved <- type_and_text rawMessage ;;
  sender <- sender_of rawMessage ;;
  ret (mk id (fst resolved) (snd resolved) sender).

End Message.

(* ================================================================== *)
(** ** services/conversation.js and services/config.js, seen from app.js *)
(* ================================================================== *)

Module Conversation.

(** Modelled from the spec: [services/conversation.js] is not among the
    sources.  Its four handlers are the asynchronous collaborators of
    sections 5 to 7: the webhook does not wait for them and their failures
    are logged, never thrown back into the inbound request.  A call is
    therefore recorded with its arguments and returns. *)
Definition handleStatus (senderPhoneNumberId status : value) : M unit :=
  perform (Js.handleStatus senderPhoneNumberId status).

Definition handleMessage (senderPhoneNumberId rawMessage : value) : M unit :=
  perform (Js.handleMessage senderPhoneNumberId rawMessage).

Definition handleInstagramMessage (businessId messagingEvent : value) : M unit :=
  perform (Js.handleInstagramMessage businessId messagingEvent).

Definition handleInstagramStatus (businessId messagingEvent : value) : M unit :=
  perform (Js.handleInstagramStatus businessId messagingEvent).

End Conversation.

(** The fields of [config] that [app.js] reads.  They come from the
    environment, where a variable is a string or is not set. *)
Record config : Type := mkConfig {
  appSecret : option string;
  igAppSecret : option string;
  verifyToken : option string
}.

(* ================================================================== *)
(** ** Strings in UTF-16 code units *)
(* ================================================================== *)

Module JsString.

(** A JavaScript string is a sequence of UTF-16 code units.  The model
    holds a string as the bytes of its UTF-8 form, and a surrogate that
    stands alone as the three bytes of its code point.  [substring] counts
    code units: a character of one, two or three bytes is one unit, a
    character of four bytes is two. *)

Definition byte (c : ascii) : Z := Z.of_N (N_of_ascii c).

Definition char (z : Z) : ascii := ascii_of_N (Z.to_N z).

(** The number of bytes of the character whose first byte is [c]. *)
Definition sequence_length (c : ascii) : nat :=
  let b := byte c in
  if b <? 0xC0 then 1 else if b <? 0xE0 then 2 else if b <? 0xF0 then 3 else 4.

Fixpoint take (n : nat) (s : string) : string :=
  match n, s with
  | S m, String c rest => String c (take m rest)
  | _, _ => EmptyString
  end.

Fixpoint drop (n : nat) (s : string) : string :=
  match n, s with
  | S m, String _ rest => drop m rest
  | _, _ => s
  end.

Definition byte_at (i : nat) (s : string) : Z :=
  match String.get i s with
  | Some c => byte c
  | None => 0
  end.

(** The high surrogate of the character whose four bytes start with
    [b0 b1 b2]: the code point shifted right by ten bits is read off these
    three bytes. *)
Definition high_surrogate (b0 b1 b2 : Z) : string :=
  let top :=
    Z.lor (Z.shiftl (Z.land b0 7) 8)
          (Z.lor (Z.shiftl (Z.land b1 63) 2) (Z.shiftr (Z.land b2 63) 4)) in
  let unit := 0xD800 + (top - 0x40) in
  String (char 0xED)
    (String (char (Z.lor 0x80 (Z.land (Z.shiftr unit 6) 63)))
       (String (char (Z.lor 0x80 (Z.land unit 63))) EmptyString)).

(** [s.substring(0, units)]: the first [units] code units of [s].  When the
    last unit is the first half of a character of two units, that half
    stands alone in the result. *)
Fixpoint first_units (units : nat) (s : string) : string :=
  match units with
  | O => EmptyString
  | S u =>
      match s with
      | EmptyString => EmptyString
      | String c rest =>
          match sequence_length c with
          | 4%nat =>
              match u with
              | O => high_surrogate (byte c) (byte_at 0 rest) (byte_at 1 rest)
              | S u' =>
                  (String c (take 3 rest) ++ first_units u' (drop 3 rest))%string
              end
          | n =>
              (String c (take (n - 1) rest)
               ++ first_units u (drop (n - 1) rest))%string
          end
      end
  end.

(** A string of ASCII characters: bytes and code units coincide. *)
Definition ascii_only (s : string) : bool :=
  forallb (fun c => byte c <? 0x80) (list_ascii_of_string s).

End JsString.

(* ================================================================== *)
(** ** Query strings *)
(* ================================================================== *)

Module Query.

#[local] Set Warnings "-register-all".

(** A value of [req.query]: a string, an array or a nested object, or
    [undefined] for a parameter that was not sent. *)
Inductive qvalue : Type :=
  | QUndefined
  | QString (s : string)
  | QArray (elems : list qvalue)
  | QObject (props : list (string * qvalue)).

Fixpoint has_own (k : string) (props : list (string * qvalue)) : bool :=
  match props with
  | [] => false
  | (k', _) :: rest => String.eqb k k' || has_own k rest
  end.

(** The conversion to a string that a comparison with a string applies to
    an array or an object.  An array is joined with commas, its elements
    converted in turn ([undefined] gives the empty string).  An object
    inherits [toString], which gives ["[object Object]"]; the query parser
    accepts any parameter name, so an object can have a [toString] of its
    own, which is a string, an array or an object and cannot be called:
    the conversion then throws. *)
Fixpoint to_string (q : qvalue) : M string :=
  match q with
  | QUndefined => ret "undefined"
  | QString s => ret s
  | QArray elems =>
      (fix join (l : list qvalue) : M string :=
         match l with
         | [] => ret ""
         | x :: rest =>
             sx <- match x with
                   | QUndefined => ret ""
                   | _ => to_string x
                   end ;;
             match rest with
             | [] => ret sx
             | _ :: _ => tail <- join rest ;; ret (sx ++ "," ++ tail)%string
             end
         end) elems
  | QObject props =>
      if has_own "toString" props
      then throw (TypeError "Cannot convert object to primitive value")
      else ret "[object Object]"
  end.

(** [q != s], the loose comparison of a query value with a config string
    that may be [undefined]: against [undefined] only [undefined] is equal,
    and nothing is converted; against a string, a string is compared as it
    is and an array or object is first converted to a string. *)
Definition loose_ne (q : qvalue) (s : option string) : M bool :=
  match s, q with
  | None, QUndefined => ret false
  | None, _ => ret true
  | Some _, QUndefined => ret true
  | Some s, QString t => ret (negb (String.eqb t s))
  | Some s, _ => p <- to_string q ;; ret (negb (String.eqb p s))
  end.

(** A parameter that is a string or was not sent. *)
Definition plain (q : qvalue) : bool :=
  match q with
  | QUndefined | QString _ => true
  | _ => false
  end.

(** The configured token as a query value would hold it. *)
Definition of_config (s : option string) : qvalue :=
  match s with
  | Some t => QString t
  | None => QUndefined
  end.

(** [req.query[k]] *)
Fixpoint param (k : string) (query : list (string * qvalue)) : qvalue :=
  match query with
  | [] => QUndefined
  | (k', v) :: rest => if String.eqb k k' then v else param k rest
  end.

End Query.

(* ================================================================== *)
(** ** app.js *)
(* ================================================================== *)

Module App.

Import Query.

(** What a route hands to Express: [res.sendStatus(code)], or
    [res.status(code).send(body)] ([res.send(body)] alone has status 200). *)
Inductive response (B : Type) : Type :=
  | sendStatus (code : Z)
  | send (code : Z) (body : B).

Arguments sendStatus {B} code.
Arguments send {B} code body.

(** *** GET /webhook *)

(** The route of lines 39 to 50; the [console.log] line of the refusal is
    left out. *)
Definition get_webhook (config : config) (query : list (string * qvalue))
  : M (response qvalue) :=
  wrong_mode <- loose_ne (param "hub.mode" query) (Some "subscribe") ;;
  refused <- (if wrong_mode then ret true
              else loose_ne (param "hub.verify_token" query) (verifyToken config)) ;;
  if refused then ret (sendStatus 403)
  else ret (send 200 (param "hub.challenge" query)).

(** *** POST /webhook *)

(** The [businessId] of both Instagram branches. *)
Definition businessId (entry messagingEvent : value) : M value :=
  id <- get entry "id" ;;
  if truthy id && (id !== "0") then ret id
  else
    recipient <- get messagingEvent "recipient" ;;
    get recipient "id".

Definition whatsapp_change (change : value) : M unit :=
  val <- get change "value" ;;
  if truthy val then
    metadata <- get val "metadata" ;;
    senderPhoneNumberId <- get metadata "phone_number_id" ;;
    statuses <- get val "statuses" ;;
    (if truthy statuses
     then forEach statuses (Conversation.handleStatus senderPhoneNumberId)
     else ret tt) ;;
    messages <- get val "messages" ;;
    (if truthy messages
     then forEach messages (Conversation.handleMessage senderPhoneNumberId)
     else ret tt)
  else ret tt.

Definition whatsapp_entry (entry : value) : M unit :=
  changes <- get entry "changes" ;;
  forEach changes whatsapp_change.

Definition instagram_messaging (entry messagingEvent : value) : M unit :=
  businessId <- businessId entry messagingEvent ;;
  message <- get messagingEvent "message" ;;
  if truthy message then
    Conversation.handleInstagramMessage businessId messagingEvent
  else
    delivery <- get messagingEvent "delivery" ;;
    delivery_or_read <-
      (if truthy delivery then ret delivery else get messagingEvent "read") ;;
    if truthy delivery_or_read then
      Conversation.handleInstagramStatus businessId messagingEvent
    else ret tt.

Definition instagram_change (entry change : value) : M unit :=
  field <- get change "field" ;;
  if field === "messages" then
    (* Adapt 'changes' format to look like 'messaging' for the handler *)
    sender <- (val <- get change "value" ;; get val "sender") ;;
    recipient <- (val <- get change "value" ;; get val "recipient") ;;
    timestamp <- (val <- get change "value" ;; get val "timestamp") ;;
    message <- (val <- get change "value" ;; get val "message") ;;
    let messagingEvent :=
      VObject [("sender", sender); ("recipient", recipient);
               ("timestamp", timestamp); ("message", message)] in
    businessId <- businessId entry messagingEvent ;;
    Conversation.handleInstagramMessage businessId messagingEvent
  else ret tt.

Definition instagram_entry (entry : value) : M unit :=
  (* Instagram payloads can have 'messaging' or 'changes' *)
  messaging <- get entry "messaging" ;;
  if truthy messaging then forEach messaging (instagram_messaging entry)
  else
    changes <- get entry "changes" ;;
    if truthy changes then forEach changes (instagram_change entry)
    else ret tt.

(** [res.status(200).send("EVENT_RECEIVED")] *)
Definition acknowledged : response string := send 200 "EVENT_RECEIVED".

(** The route: [body] is [req.body], the parsed JSON.  The [console.log]
    lines, which print the time and the payload, are left out. *)
Definition post_webhook (body : value) : M (response string) :=
  object <- get body "object" ;;
  (if object === "whatsapp_business_account" then
     entry <- get body "entry" ;;
     forEach entry whatsapp_entry
   else if object === "instagram" then
     entry <- get body "entry" ;;
     forEach entry instagram_entry
   else ret tt) ;;
  ret acknowledged.

(** *** verifyRequestSignature *)

(** [req.headers]: Node stores each header under its lower-case name. *)
Record request : Type := mkRequest {
  headers : list (string * string);
  rawBody : string
}.

Fixpoint header (name : string) (hs : list (string * string)) : option string :=
  match hs with
  | [] => None
  | (k, v) :: rest => if String.eqb name k then Some v else header name rest
  end.

(** A string or [undefined], as a value, and its truthiness. *)
Definition of_option (o : option string) : value :=
  match o with
  | Some s => VString s
  | None => VUndefined
  end.

Definition present (o : option string) : bool := truthy (of_option o).

(** [s.split(sep)] for a one-character separator. *)
Fixpoint split (sep : ascii) (s : string) : list string :=
  match s with
  | EmptyString => [EmptyString]
  | String c rest =>
      if Ascii.eqb c sep then EmptyString :: split sep rest
      else match split sep rest with
           | [] => [String c EmptyString]
           | piece :: pieces => String c piece :: pieces
           end
  end.

Definition equals_sign : ascii := ascii_of_nat 61.

(** [signature.split("=")[1]]: the piece between the first and the second
    equals sign; [undefined] when the header has no equals sign. *)
Definition signatureHash (signature : string) : option string :=
  nth_error (split equals_sign signature) 1.

Definition double_quote : string := String (ascii_of_nat 34) EmptyString.

(** [crypto.createHmac("sha256", key).update(buf).digest("hex")]; a key that
    is [undefined] is refused by [createHmac] (the message is abridged). *)
Definition hmac_hex (key : option string) (buf : string) : M string :=
  match key with
  | Some k =>
      perform (createHmac k buf) ;;
      ret (Crypto.hmac_sha256_hex k buf)
  | None =>
      throw (TypeError "The 'key' argument must be of type string. Received undefined")
  end.

(** [secret.substring(0, 4) + "..."] *)
Definition first_four (secret : option string) : M value :=
  match secret with
  | Some s => ret (VString (JsString.first_units 4 s ++ "..."))
  | None =>
      throw (TypeError "Cannot read properties of undefined (reading 'substring')")
  end.

Definition option_string_eqb (a b : option string) : bool :=
  match a, b with
  | Some x, Some y => String.eqb x y
  | None, None => true
  | _, _ => false
  end.

(** The error of line 198. *)
Definition signature_error : error :=
  Error "Couldn't validate the request signature.".

(** Lines 185 to 198: what follows the two comparisons when neither has
    returned. *)
Definition signature_mismatch (config : config) (signatureHash : option string)
  : M unit :=
  perform (console_error [VString "Signature mismatch!"]) ;;
  perform (console_error [VString "Received signature hash:";
                          of_option signatureHash]) ;;
  main <- first_four (appSecret config) ;;
  perform (console_error [VString "Main appSecret used for verification:"; main]) ;;
  (if negb (option_string_eqb (igAppSecret config) (appSecret config)) then
     ig <- first_four (igAppSecret config) ;;
     perform (console_error [VString "IG appSecret used for verification:"; ig])
   else ret tt) ;;
  throw signature_error.

Definition warning_missing_header : effect :=
  console_warn
    [VString ("Couldn't find " ++ double_quote ++ "x-hub-signature-256"
              ++ double_quote ++ " in headers.")].

Definition verifyRequestSignature (config : config) (req : request) (buf : string)
  : M unit :=
  let signature := header "x-hub-signature-256" (headers req) in
  if negb (present signature) then perform warning_missing_header
  else
    let signatureHash :=
      signatureHash (match signature with Some s => s | None => "" end) in
    (* Try verifying with the main App Secret *)
    expectedHash <- hmac_hex (appSecret config) buf ;;
    if option_string_eqb signatureHash (Some expectedHash) then ret tt
    else
      (* If main secret fails, try with IG App Secret if it's different *)
      if present (igAppSecret config)
         && negb (option_string_eqb (igAppSecret config) (appSecret config))
      then
        expectedHashIG <- hmac_hex (igAppSecret config) buf ;;
        if option_string_eqb signatureHash (Some expectedHashIG) then ret tt
        else signature_mismatch config signatureHash
      else signature_mismatch config signatureHash.

(** *** The POST pipeline: [app.use(urlencoded(...))],
    [app.use(json({ verify: verifyRequestSignature }))] and the route *)

(** What the two body parsers of lines 22 to 29 do with a request.
    [json()] takes a request that has a body of media type
    [application/json] which no earlier parser has read: it calls [verify]
    on the raw bytes and then parses them.  Every other request passes
    [json()] unread, and so unverified: [req.body] is then what
    [urlencoded()] parsed from a form, or what the parsers leave on a
    request they do not read. *)
Inductive taken : Type :=
  | ByJson
  | Passed (body : value).

Section Pipeline.

(** The decision of the parsers, which lies in body-parser, and
    [JSON.parse] on the raw body ([None] when the text is not JSON). *)
Variable body_parser : request -> taken.
Variable JSON_parse : string -> option value.

(** [json()] on a request it takes: an exception of [verify], or of the
    parser, goes to the error handler and the route is not entered. *)
Definition json (config : config) (req : request) : M value :=
  verifyRequestSignature config req (rawBody req) ;;
  match JSON_parse (rawBody req) with
  | Some body => ret body
  | None => throw (SyntaxError "Unexpected token in JSON")
  end.

Definition handle_post (config : config) (req : request)
  : M (response string) :=
  match body_parser req with
  | ByJson => body <- json config req ;; post_webhook body
  | Passed body => post_webhook body
  end.

End Pipeline.

End App.

(* ================================================================== *)
(** ** Reference definitions from the specification *)
(* ================================================================== *)

Module Spec.

Import App.

(** Single-secret verification as section 4.1 words it: a request without
    the header proceeds; otherwise the hex part of the header is compared
    with the keyed hash of the raw body under the one secret. *)
Definition single_secret_accepts (secret : string) (req : request) (buf : string)
  : bool :=
  match header "x-hub-signature-256" (headers req) with
  | None => true
  | Some signature =>
      if String.eqb signature "" then true
      else option_string_eqb (signatureHash signature)
                             (Some (Crypto.hmac_sha256_hex secret buf))
  end.

(** The envelope shape of section 4.3, as far as the dispatcher reads it:
    the nested arrays are arrays, and a value from which a property is read
    is neither [undefined] nor [null]. *)
Definition array_of (p : value -> bool) (v : value) : bool :=
  match v with
  | VArray elems => forallb p elems
  | _ => false
  end.

Definition optional_array (v : value) : bool :=
  negb (truthy v) || array_of (fun _ => true) v.

(** Kind A: a change holds no value, or a value with [metadata] and optional
    [statuses] and [messages] arrays. *)
Definition whatsapp_change_ok (change : value) : bool :=
  negb (nullish change)
  && let val := prop "value" change in
     (negb (truthy val)
      || (negb (nullish (prop "metadata" val))
          && optional_array (prop "statuses" val)
          && optional_array (prop "messages" val))).

Definition whatsapp_entry_ok (entry : value) : bool :=
  negb (nullish entry) && array_of whatsapp_change_ok (prop "changes" entry).

(** Kind B: the entry id is usable as business id, or the event names its
    recipient. *)
Definition entry_id_usable (entry : value) : bool :=
  truthy (prop "id" entry) && (prop "id" entry !== "0").

Definition instagram_messaging_ok (entry messagingEvent : value) : bool :=
  negb (nullish messagingEvent)
  && (entry_id_usable entry
      || negb (nullish (prop "recipient" messagingEvent))).

Definition instagram_change_ok (entry change : value) : bool :=
  negb (nullish change)
  && (negb (prop "field" change === "messages")
      || (negb (nullish (prop "value" change))
          && (entry_id_usable entry
              || negb (nullish (prop "recipient" (prop "value" change)))))).

Definition instagram_entry_ok (entry : value) : bool :=
  negb (nullish entry)
  && if truthy (prop "messaging" entry)
     then array_of (instagram_messaging_ok entry) (prop "messaging" entry)
     else negb (truthy (prop "changes" entry))
          || array_of (instagram_change_ok entry) (prop "changes" entry).

Definition well_shaped (body : value) : bool :=
  negb (nullish body)
  && if prop "object" body === "whatsapp_business_account"
     then array_of whatsapp_entry_ok (prop "entry" body)
     else if prop "object" body === "instagram"
          then array_of instagram_entry_ok (prop "entry" body)
          else true.

(** Sender resolution as section 4.2 words it: the explicit phone-number
    field [from], else the nested [sender.id], else [undefined]. *)
Definition sender_value (rawMessage : value) : value :=
  if truthy (prop "from" rawMessage) then prop "from" rawMessage
  else if truthy (prop "sender" rawMessage)
       then prop "id" (prop "sender" rawMessage)
       else VUndefined.

(** [free_of c s]: the character [c] does not occur in [s]. *)
Definition free_of (c : ascii) (s : string) : bool :=
  forallb (fun x => negb (Ascii.eqb x c)) (list_ascii_of_string s).

End Spec.

(* ================================================================== *)
(** ** services/graph-api.js: the outbound client *)
(* ================================================================== *)

Module GraphApi.

(** The two SDK instances of the module, [whatsappApi] and [instagramApi].
    Both are objects, so the tests [!api] and [!instagramApi] never hold
    and the branches behind them are left out. *)
Inductive instance : Type := whatsappApi | instagramApi.

(** The [platform] argument of [#makeApiCall].  The method is private: its
    callers pass nothing, which gives the default "whatsapp", or the
    literal "instagram". *)
Inductive platform : Type := whatsapp | instagram.

(** [platform.toUpperCase()] *)
Definition toUpperCase (p : platform) : string :=
  match p with
  | whatsapp => "WHATSAPP"
  | instagram => "INSTAGRAM"
  end.

(** [api.call(method, path, params)] *)
Record request : Type := mkCall {
  api : instance;
  method : string;
  path : list value;
  params : value
}.

(** What a promise is rejected with: a value thrown by the SDK, or an error
    raised by the engine while the method runs. *)
Inductive rejection : Type :=
  | Thrown (error : value)
  | Raised (error : Js.error).

Inductive settled (A : Type) : Type :=
  | Fulfilled (a : A)
  | Rejected (r : rejection).

Arguments Fulfilled {A} a.
Arguments Rejected {A} r.

(** An argument of a console call: a text, a value, or the text
    [JSON.stringify(value, null, 2)]. *)
Inductive printed : Type :=
  | Text (s : string)
  | Val (v : value)
  | Json (v : value).

Inductive event : Type :=
  | Call (r : request)
  | console_log (args : list printed)
  | console_error (args : list printed).

Definition is_call (e : event) : bool :=
  match e with
  | Call _ => true
  | _ => false
  end.

(** The requests among the events of a run, in order. *)
Fixpoint calls (l : list event) : list request :=
  match l with
  | [] => []
  | Call r :: rest => r :: calls rest
  | _ :: rest => calls rest
  end.

(** An integer as a number value (exact as long as the integer is below
    2^53 in absolute value). *)
Definition number_of_Z (z : Z) : spec_float :=
  match z with
  | Z0 => S754_zero false
  | Zpos p => S754_finite false p 0
  | Zneg p => S754_finite true p 0
  end.

Section Client.

(** The world outside: the state of the remote API, and what a call does to
    it and answers (the response, or the error the promise is rejected
    with). *)
Variable World : Type.
Variable api_call : World -> request -> World * (value + value).

(** [Number.prototype.toString]. *)
Variable Number_toString : spec_float -> string.

(** ToString, as a template literal applies it.  An array is joined with
    commas, its elements converted in turn ([undefined] and [null] give the
    empty string).  An object inherits [toString], which gives
    ["[object Object]"]; a value that came out of [JSON.parse] can have a
    [toString] of its own, which is no function: the conversion then
    throws. *)
Fixpoint to_string (v : value) : M string :=
  match v with
  | VUndefined => ret "undefined"
  | VNull => ret "null"
  | VBool true => ret "true"
  | VBool false => ret "false"
  | VNumber n => ret (Number_toString n)
  | VString s => ret s
  | VArray elems =>
      (fix join (l : list value) : M string :=
         match l with
         | [] => ret ""
         | x :: rest =>
             sx <- match x with
                   | VUndefined | VNull => ret ""
                   | _ => to_string x
                   end ;;
             match rest with
             | [] => ret sx
             | _ :: _ => tail <- join rest ;; ret (sx ++ "," ++ tail)%string
             end
         end) elems
  | VObject props =>
      match own "toString" props with
      | VUndefined => ret "[object Object]"
      | _ => throw (TypeError "Cannot convert object to primitive value")
      end
  end.

(** An asynchronous computation: from the state of the world to the events
    of the run, the state it leaves, and how the promise settles. *)
Definition G (A : Type) : Type := World -> list event * World * settled A.

(** The events, the final world and the settlement of a run. *)
Definition events_of {A} (r : list event * World * settled A) : list event :=
  fst (fst r).

Definition world_of {A} (r : list event * World * settled A) : World :=
  snd (fst r).

Definition result_of {A} (r : list event * World * settled A) : settled A :=
  snd r.

Definition resolve {A} (a : A) : G A := fun w => ([], w, Fulfilled a).

Definition reject {A} (r : rejection) : G A := fun w => ([], w, Rejected r).

Definition then_ {A B} (m : G A) (k : A -> G B) : G B :=
  fun w =>
    match m w with
    | (l, w1, Fulfilled a) =>
        match k a w1 with
        | (l', w2, r) => (l ++ l', w2, r)
        end
    | (l, w1, Rejected r) => (l, w1, Rejected r)
    end.

(** [try { m } catch (error) { handler }] *)
Definition try_catch {A} (m : G A) (handler : rejection -> G A) : G A :=
  fun w =>
    match m w with
    | (l, w1, Fulfilled a) => (l, w1, Fulfilled a)
    | (l, w1, Rejected r) =>
        match handler r w1 with
        | (l', w2, r') => (l ++ l', w2, r')
        end
    end.

Definition emit (e : event) : G unit := fun w => ([e], w, Fulfilled tt).

(** [await api.call(method, path, params)] *)
Definition call (r : request) : G value :=
  fun w =>
    match api_call w r with
    | (w1, inl response) => ([Call r], w1, Fulfilled response)
    | (w1, inr error) => ([Call r], w1, Rejected (Thrown error))
    end.

(** A computation of the synchronous part, which only reads properties: an
    exception it raises rejects the promise of the [async] method. *)
Definition sync {A} (m : M A) : G A :=
  match outcome m with
  | Normal a => resolve a
  | Throw e => reject (Raised e)
  end.

(** [error.k] in the [catch] block. *)
Definition read (r : rejection) (k : string) : G value :=
  match r with
  | Thrown error => sync (get error k)
  | Raised (Error m) | Raised (TypeError m) | Raised (SyntaxError m) =>
      resolve (if String.eqb k "message" then VString m else VUndefined)
  end.

(** [[`${senderId}`, "messages"]] with the text of [senderId]. *)
Definition messages_path (senderId : string) : list value :=
  [VString senderId; VString "messages"].

(** The body of the mark-as-read call. *)
Definition typingBody (p : platform) (messageId senderId : value) : value :=
  match p with
  | whatsapp =>
      VObject [("messaging_product", VString "whatsapp");
               ("status", VString "read");
               ("message_id", messageId)]
  | instagram =>
      (* Instagram mark as read *)
      VObject [("recipient", VObject [("id", senderId)]);
               ("sender_action", VString "mark_read")]
  end.

Definition instance_of (p : platform) : instance :=
  match p with
  | whatsapp => whatsappApi
  | instagram => instagramApi
  end.

Definition tag_of (p : platform) : string := "[" ++ toUpperCase p ++ "]".

(** A template literal with one value in it. *)
Definition template (before : string) (v : value) (after : string) : G string :=
  sync (s <- to_string v ;; ret (before ++ s ++ after)%string).

Definition makeApiCall (messageId senderId requestBody : value) (p : platform)
  : G value :=
  try_catch
    (let api := instance_of p in
     then_ (template (tag_of p ++ " Making API call to: /") senderId "/messages")
       (fun line =>
     then_ (emit (console_log [Text line]))
       (fun _ =>
     (* Mark as read *)
     then_ (if truthy messageId then
              then_ (template (tag_of p ++ " Marking message ") messageId
                       " as read...")
                (fun line =>
              then_ (emit (console_log [Text line]))
                (fun _ =>
              then_ (sync (to_string senderId))
                (fun sid =>
              then_ (call (mkCall api "POST" (messages_path sid)
                             (typingBody p messageId senderId)))
                (fun _ => resolve tt))))
            else resolve tt)
       (fun _ =>
     then_ (sync (to_string senderId))
       (fun sid =>
     then_ (call (mkCall api "POST" (messages_path sid) requestBody))
       (fun response =>
     then_ (emit (console_log [Text (tag_of p ++ " API call successful")]))
       (fun _ => resolve response)))))))
    (fun error =>
     then_ (template (tag_of p ++ " Error making API call to /") senderId
              "/messages:")
       (fun line =>
     then_ (read error "message")
       (fun message =>
     then_ (emit (console_error [Text line; Val message]))
       (fun _ =>
     then_ (read error "response")
       (fun response =>
     then_ (if truthy response then
              emit (console_error
                      [Text (tag_of p ++ " Meta Error Response:");
                       Json response])
            else resolve tt)
       (fun _ => reject error)))))).

(** *** The request bodies *)

(** [v.map(f)], the callback taking the element and its index. *)
Fixpoint map_from (f : value -> nat -> M value) (i : nat) (l : list value)
  : M (list value) :=
  match l with
  | [] => ret []
  | x :: rest =>
      y <- f x i ;;
      ys <- map_from f (S i) rest ;;
      ret (y :: ys)
  end.

Definition array_map (v : value) (f : value -> nat -> M value) : M value :=
  match v with
  | VArray elems => l <- map_from f 0 elems ;; ret (VArray l)
  | VUndefined | VNull => get v "map"
  | _ => throw (TypeError "map is not a function")
  end.

(** [const { ... } = options]: destructuring reads properties, and throws
    on [undefined] and [null]. *)
Definition destructure (options : value) (first : string) : M unit :=
  if nullish options then
    throw (TypeError ("Cannot destructure property '" ++ first
                      ++ "' of 'options' as it is "
                      ++ match options with VNull => "null" | _ => "undefined" end
                      ++ "."))
  else ret tt.

Definition reply_button (cta : value) : M value :=
  id <- get cta "id" ;;
  title <- get cta "title" ;;
  ret (VObject [("type", VString "reply");
                ("reply", VObject [("id", id); ("title", title)])]).

(** The button of a call to action from which [id] and [title] can be
    read. *)
Definition button_of (cta : value) : value :=
  VObject [("type", VString "reply");
           ("reply", VObject [("id", prop "id" cta); ("title", prop "title" cta)])].

Definition interactive_body (recipientPhoneNumber messageText buttons : value)
  : value :=
  VObject
    [("messaging_product", VString "whatsapp");
     ("to", recipientPhoneNumber);
     ("type", VString "interactive");
     ("interactive",
      VObject
        [("type", VString "button");
         ("body", VObject [("text", messageText)]);
         ("action", VObject [("buttons", buttons)])])].

Definition interactive_reply_body
  (recipientPhoneNumber messageText replyCTAs : value) : M value :=
  buttons <- array_map replyCTAs (fun cta _ => reply_button cta) ;;
  ret (interactive_body recipientPhoneNumber messageText buttons).

Definition header_image (imageLink : value) : value :=
  VObject
    [("type", VString "header");
     ("parameters",
      VArray [VObject [("type", VString "image");
                       ("image", VObject [("link", imageLink)])]])].

Definition template_body
  (recipientPhoneNumber templateName locale : value) (components : list value)
  : value :=
  VObject
    [("messaging_product", VString "whatsapp");
     ("recipient_type", VString "individual");
     ("to", recipientPhoneNumber);
     ("type", VString "template");
     ("template",
      VObject
        [("name", templateName);
         ("language", VObject [("code", locale)]);
         ("components", VArray components)])].

Definition utility_template_body (recipientPhoneNumber options : value)
  : M value :=
  destructure options "templateName" ;;
  ret (template_body recipientPhoneNumber
         (prop "templateName" options) (prop "locale" options)
         [header_image (prop "imageLink" options)]).

(** [now] is [currentTime.getTime()], the time of the call in
    milliseconds. *)
Definition limited_time_offer_body
  (now : Z) (recipientPhoneNumber options : value) : M value :=
  destructure options "templateName" ;;
  let futureTime := now + 48 * 60 * 60 * 1000 in
  ret (template_body recipientPhoneNumber
         (prop "templateName" options) (prop "locale" options)
         [header_image (prop "imageLink" options);
          VObject
            [("type", VString "limited_time_offer");
             ("parameters",
              VArray
                [VObject
                   [("type", VString "limited_time_offer");
                    ("limited_time_offer",
                     VObject [("expiration_time_ms",
                               VNumber (number_of_Z futureTime))])]])];
          VObject
            [("type", VString "button");
             ("sub_type", VString "copy_code");
             ("index", VNumber (number_of_Z 0));
             ("parameters",
              VArray
                [VObject [("type", VString "coupon_code");
                          ("coupon_code", prop "offerCode" options)]])]]).

Definition carousel_card (imageLink : value) (idx : nat) : value :=
  VObject [("card_index", VNumber (number_of_Z (Z.of_nat idx)));
           ("components", VArray [header_image imageLink])].

Definition carousel_body
  (recipientPhoneNumber templateName locale cards : value) : value :=
  template_body recipientPhoneNumber templateName locale
    [VObject [("type", VString "carousel"); ("cards", cards)]].

Definition media_card_carousel_body (recipientPhoneNumber options : value)
  : M value :=
  destructure options "templateName" ;;
  cards <- array_map (prop "imageLinks" options)
             (fun imageLink idx => ret (carousel_card imageLink idx)) ;;
  ret (carousel_body recipientPhoneNumber
         (prop "templateName" options) (prop "locale" options) cards).

(** The arrays [map] accepts with these callbacks: an array all of whose
    elements can be read. *)
Definition readable_array (v : value) : bool :=
  match v with
  | VArray elems => forallb (fun x => negb (nullish x)) elems
  | _ => false
  end.

Definition is_array (v : value) : bool :=
  match v with
  | VArray _ => true
  | _ => false
  end.

Definition instagram_text_body (recipientId text tag : value) : value :=
  VObject
    ([("recipient", VObject [("id", recipientId)]);
      ("message", VObject [("text", text)])]
     ++ if truthy tag
        then [("messaging_type", VString "MESSAGE_TAG"); ("tag", tag)]
        else []).

(** *** The public methods *)

Definition messageWithInteractiveReply
  (messageId senderPhoneNumberId recipientPhoneNumber messageText replyCTAs : value)
  : G value :=
  then_ (sync (interactive_reply_body recipientPhoneNumber messageText replyCTAs))
    (fun requestBody =>
       makeApiCall messageId senderPhoneNumberId requestBody whatsapp).

Definition messageWithUtilityTemplate
  (messageId senderPhoneNumberId recipientPhoneNumber options : value)
  : G value :=
  then_ (sync (utility_template_body recipientPhoneNumber options))
    (fun requestBody =>
       makeApiCall messageId senderPhoneNumberId requestBody whatsapp).

Definition messageWithLimitedTimeOfferTemplate
  (now : Z)
  (messageId senderPhoneNumberId recipientPhoneNumber options : value)
  : G value :=
  then_ (sync (limited_time_offer_body now recipientPhoneNumber options))
    (fun requestBody =>
       makeApiCall messageId senderPhoneNumberId requestBody whatsapp).

Definition messageWithMediaCardCarousel
  (messageId senderPhoneNumberId recipientPhoneNumber options : value)
  : G value :=
  then_ (sync (media_card_carousel_body recipientPhoneNumber options))
    (fun requestBody =>
       makeApiCall messageId senderPhoneNumberId requestBody whatsapp).

Definition sendInstagramTextMessage (senderPageId recipientId text tag : value)
  : G value :=
  makeApiCall VNull senderPageId (instagram_text_body recipientId text tag)
    instagram.

Definition markInstagramMessageAsRead (senderPageId recipientId : value)
  : G value :=
  makeApiCall VNull senderPageId
    (VObject [("recipient", VObject [("id", recipientId)]);
              ("sender_action", VString "mark_read")])
    instagram.

(** Conversations API *)
Definition getInstagramConversations (pageId : value) : G value :=
  call (mkCall instagramApi "GET" [VString "me"; VString "conversations"]
          (VObject [("platform", VString "instagram")])).

Definition getInstagramMessages (conversationId : value) : G value :=
  call (mkCall instagramApi "GET" [conversationId]
          (VObject [("fields", VString "messages")])).

End Client.

End GraphApi.

(* ================================================================== *)
(** ** Vocabulary for the properties of the dispatcher and the verifier *)
(* ================================================================== *)

Module Shape.

Import App.

(** The elements of an array; no elements for any other value. *)
Definition elements (v : value) : list value :=
  match v with
  | VArray elems => elems
  | _ => []
  end.

(** The routing id of a kind-A change: [value.metadata.phone_number_id]. *)
Definition phone_number_id (change : value) : value :=
  prop "phone_number_id" (prop "metadata" (prop "value" change)).

(** The business id of a kind-B event, as a value: the entry id when it is
    usable, the recipient id of the event otherwise. *)
Definition business_id (entry messagingEvent : value) : value :=
  if Spec.entry_id_usable entry then prop "id" entry
  else prop "id" (prop "recipient" messagingEvent).

(** The object the changes branch builds for the handler. *)
Definition adapted (change : value) : value :=
  let val := prop "value" change in
  VObject [("sender", prop "sender" val); ("recipient", prop "recipient" val);
           ("timestamp", prop "timestamp" val); ("message", prop "message" val)].

(** The handler calls of lines 101 to 105 for an event of [entry.messaging]:
    the message handler for an event with a message, else the status
    handler for an event with a delivery or a read, else none. *)
Definition messaging_calls (entry messagingEvent : value) : list effect :=
  if truthy (prop "message" messagingEvent) then
    [handleInstagramMessage (business_id entry messagingEvent) messagingEvent]
  else if truthy (prop "delivery" messagingEvent)
          || truthy (prop "read" messagingEvent) then
    [handleInstagramStatus (business_id entry messagingEvent) messagingEvent]
  else [].

(** The handler call of lines 117 to 132 for a change of [entry.changes]. *)
Definition change_calls (entry change : value) : list effect :=
  if prop "field" change === "messages" then
    [handleInstagramMessage (business_id entry (adapted change)) (adapted change)]
  else [].

(** The handler calls for a kind-B entry: those for its messaging events
    when it has a truthy [messaging], those for its changes otherwise; each
    call is made with the entry itself. *)
Definition entry_calls (entry : value) : list effect :=
  if truthy (prop "messaging" entry)
  then flat_map (messaging_calls entry) (elements (prop "messaging" entry))
  else flat_map (change_calls entry) (elements (prop "changes" entry)).

(** The characters of [digest("hex")]: the digits and [a] to [f]. *)
Definition is_lower_hex (c : ascii) : bool :=
  let n := N_of_ascii c in
  ((48 <=? n) && (n <=? 57) || (97 <=? n) && (n <=? 102))%N.

Definition lower_hex (s : string) : bool :=
  forallb is_lower_hex (list_ascii_of_string s).

(** The texts of lines 185 to 195 that do not depend on the request. *)
Definition mismatch_labels : list string :=
  ["Signature mismatch!"; "Received signature hash:";
   "Main appSecret used for verification:";
   "IG appSecret used for verification:"].

End Shape.

(* ================================================================== *)
(** ** Sample configurations, requests and payloads *)
(* ================================================================== *)

Module Samples.

Import App.

Definition two_secrets : config :=
  mkConfig (Some "s1") (Some "s2") (Some "token").

Definition one_secret : config :=
  mkConfig (Some "s1") None (Some "token").

(** The body [{}] signed under the secondary secret ["s2"]. *)
Definition signed_by_secondary : request :=
  mkRequest
    [("content-type", "application/json");
     ("x-hub-signature-256",
      "sha256=3d131e1c597a4c93db1df1031dfdb3789e334d8f1f5e0254477170ee24cb2fa4")]
    "{}".

(** The same body signed under the primary secret ["s1"], the header naming
    another algorithm. *)
Definition signed_md5_prefix : request :=
  mkRequest
    [("x-hub-signature-256",
      "md5=d3bcb03fd921378bcebcb82a3a816fa98bc2f0da108f86196b35827d56dedf89")]
    "{}".

Definition signed_sha256_prefix : request :=
  mkRequest
    [("x-hub-signature-256",
      "sha256=d3bcb03fd921378bcebcb82a3a816fa98bc2f0da108f86196b35827d56dedf89")]
    "{}".

Definition unsigned : request :=
  mkRequest [("content-type", "application/json")] "{}".

(** [{ text: { body: "" } }] *)
Definition empty_text_message : value :=
  VObject [("text", VObject [("body", VString "")])].

(** [{ text: "hi" }] *)
Definition plain_text_message : value :=
  VObject [("text", VString "hi")].

(** A WhatsApp list reply: [type] is "interactive", and [interactive] holds
    a [list_reply] and no [button_reply]. *)
Definition list_reply_message : value :=
  VObject
    [("from", VString "15550001111");
     ("id", VString "wamid.1");
     ("type", VString "interactive");
     ("interactive",
      VObject [("type", VString "list_reply");
               ("list_reply",
                VObject [("id", VString "row-1"); ("title", VString "Row 1")])])].

(** A button reply with id "BUY_NOW". *)
Definition button_reply_message : value :=
  VObject
    [("from", VString "15550001111");
     ("id", VString "wamid.2");
     ("type", VString "interactive");
     ("interactive",
      VObject [("type", VString "button_reply");
               ("button_reply",
                VObject [("id", VString "BUY_NOW"); ("title", VString "Buy")])])].

(** [{ text: { body: "hi" } }] *)
Definition direct_text_message : value :=
  VObject [("text", VObject [("body", VString "hi")])].

(** An Instagram messaging event sent to the account "12345". *)
Definition ig_message_event : value :=
  VObject
    [("sender", VObject [("id", VString "777")]);
     ("recipient", VObject [("id", VString "12345")]);
     ("timestamp", VString "1700000000");
     ("message", VObject [("mid", VString "m1"); ("text", VString "hi")])].

(** A change of the field "messages", for the same account. *)
Definition ig_change : value :=
  VObject
    [("field", VString "messages");
     ("value",
      VObject
        [("sender", VObject [("id", VString "888")]);
         ("recipient", VObject [("id", VString "12345")]);
         ("timestamp", VString "1700000001");
         ("message", VObject [("mid", VString "m2"); ("text", VString "yo")])])].

(** An entry with both arrays, under the entry id [id]. *)
Definition ig_entry (id : string) : value :=
  VObject
    [("id", VString id);
     ("messaging", VArray [ig_message_event]);
     ("changes", VArray [ig_change])].

Definition ig_body (id : string) : value :=
  VObject [("object", VString "instagram"); ("entry", VArray [ig_entry id])].

(** Two entries: the first, under the id "98765", holds a messaging event;
    the second, under the id "0", holds a change. *)
Definition ig_two_entries : value :=
  VObject
    [("object", VString "instagram");
     ("entry",
      VArray
        [VObject [("id", VString "98765"); ("messaging", VArray [ig_message_event])];
         VObject [("id", VString "0"); ("changes", VArray [ig_change])]])].

(** A WhatsApp template status update: the value of the change has no
    [metadata]. *)
Definition template_status_update : value :=
  VObject
    [("object", VString "whatsapp_business_account");
     ("entry",
      VArray
        [VObject
           [("id", VString "102290129340398");
            ("changes",
             VArray
               [VObject
                  [("field", VString "message_template_status_update");
                   ("value",
                    VObject [("event", VString "APPROVED");
                             ("message_template_name", VString "offer")])]])]])].

(** A Messenger page payload: a kind the route does not know. *)
Definition page_body : value :=
  VObject [("object", VString "page"); ("entry", VArray [ig_entry "1"])].

(** A WhatsApp text message with its delivery status. *)
Definition whatsapp_body : value :=
  VObject
    [("object", VString "whatsapp_business_account");
     ("entry",
      VArray
        [VObject
           [("id", VString "102290129340398");
            ("changes",
             VArray
               [VObject
                  [("field", VString "messages");
                   ("value",
                    VObject
                      [("metadata", VObject [("phone_number_id", VString "555")]);
                       ("statuses", VArray [VObject [("status", VString "read")]]);
                       ("messages", VArray [direct_text_message])])]])]])].

End Samples.

(* ================================================================== *)
(** ** Sample remote APIs *)
(* ================================================================== *)

Module ClientSamples.

Import GraphApi.

(** An API that accepts every request; its state counts the requests. *)
Definition accepting (n : nat) (r : request) : nat * (value + value) :=
  (S n, inl (VObject [("messages", VArray [VObject [("id", VString "wamid.9")]])])).

(** An API that refuses its first request. *)
Definition refusing_first (n : nat) (r : request) : nat * (value + value) :=
  (S n,
   match n with
   | O => inr (VObject [("message", VString "Invalid OAuth access token");
                        ("response", VObject [("code", VString "190")])])
   | S _ => inl (VObject [])
   end).

(** An API whose promise is rejected with [null]. *)
Definition rejecting_with_null (n : nat) (r : request) : nat * (value + value) :=
  (S n, inr VNull).

(** The ids of the samples are strings: numbers are never printed. *)
Definition no_numbers (n : spec_float) : string := "".

Definition two_buttons : value :=
  VArray [VObject [("id", VString "BUY_NOW"); ("title", VString "Buy now")];
          VObject [("id", VString "LATER"); ("title", VString "Later")]].

Definition carousel_options : value :=
  VObject [("templateName", VString "cards"); ("locale", VString "en_US");
           ("imageLinks", VArray [VString "https://example.com/a.png";
                                  VString "https://example.com/b.png"])].

End ClientSamples.

(* ================================================================== *)
(** * Properties *)
(* ================================================================== *)

Import App.

(** ** The digest agrees with the published test vectors *)

Example sha256_abc :
  Crypto.hex (Crypto.sha256 (Crypto.bytes_of_string "abc"))
  = "ba7816bf8f01cfea414140de5dae2223b00361a396177a9cb410ff61f20015ad".
Proof. vm_compute. reflexivity. Qed.

(** RFC 4231, test case 2. *)
Example hmac_rfc4231_case2 :
  Crypto.hmac_sha256_hex "Jefe" "what do ya want for nothing?"
  = "5bdcc146bf60754e6a042426089575c75a003f089d2739839dec58b964ec3843".
Proof. vm_compute. reflexivity. Qed.

(** A hex digest consists of hex digits; in particular it holds no equals
    sign. *)
Lemma be_bytes_range (n : nat) (x : Z) :
  Forall (fun b => 0 <= b < 256) (Crypto.be_bytes n x).
Proof.
  induction n as [| n IH]; cbn [Crypto.be_bytes]; constructor; [| exact IH].
  change 0xff with (Z.ones 8). rewrite Z.land_ones by lia.
  apply Z.mod_pos_bound. reflexivity.
Qed.

Lemma sha256_range (msg : list Z) :
  Forall (fun b => 0 <= b < 256) (Crypto.sha256 msg).
Proof.
  unfold Crypto.sha256. cbv zeta.
  set (s := fold_left _ _ _). clearbody s.
  cbn [flat_map]. repeat (apply Forall_app; split; try apply be_bytes_range).
  constructor.
Qed.

Lemma hex_digit_not_equals (n : Z) :
  0 <= n < 16 -> Ascii.eqb (Crypto.hex_digit n) equals_sign = false.
Proof.
  intros H. apply Ascii.eqb_neq. intros E.
  apply (f_equal N_of_ascii) in E. unfold Crypto.hex_digit in E.
  change (N_of_ascii equals_sign) with 61%N in E.
  destruct (Z.ltb_spec n 10); rewrite N_ascii_embedding in E; lia.
Qed.

Lemma hex_free_of_equals (bs : list Z) :
  Forall (fun b => 0 <= b < 256) bs ->
  Spec.free_of equals_sign (Crypto.hex bs) = true.
Proof.
  unfold Spec.free_of. induction 1 as [| b bs Hb _ IH]; [reflexivity |].
  cbn [Crypto.hex list_ascii_of_string forallb].
  rewrite IH, !hex_digit_not_equals; [reflexivity | |].
  - change 0xf with (Z.ones 4). rewrite Z.land_ones by lia.
    apply Z.mod_pos_bound. reflexivity.
  - rewrite Z.shiftr_div_pow2 by lia. change (2 ^ 4) with 16.
    split; [apply Z.div_pos; lia | apply Z.div_lt_upper_bound; lia].
Qed.

Lemma hmac_free_of_equals (key buf : string) :
  Spec.free_of equals_sign (Crypto.hmac_sha256_hex key buf) = true.
Proof.
  unfold Crypto.hmac_sha256_hex, Crypto.hmac_sha256.
  apply hex_free_of_equals, sha256_range.
Qed.

(** The proofs below never look inside the digest. *)
#[global] Opaque Crypto.hmac_sha256_hex.

(** ** The monad *)

Section MonadLaws.

Context {A B : Type}.

Lemma bind_ret (a : A) (k : A -> M B) : bind (ret a) k = k a.
Proof. unfold bind, ret. destruct (k a); reflexivity. Qed.

Lemma bind_throw (e : error) (k : A -> M B) : bind (throw e) k = throw e.
Proof. reflexivity. Qed.

Lemma outcome_bind (m : M A) (k : A -> M B) :
  outcome (bind m k)
  = match outcome m with
    | Normal a => outcome (k a)
    | Throw e => Throw e
    end.
Proof.
  destruct m as [l [a | e]]; cbn; [destruct (k a) |]; reflexivity.
Qed.

Lemma trace_bind (m : M A) (k : A -> M B) :
  trace (bind m k)
  = trace m ++ match outcome m with
               | Normal a => trace (k a)
               | Throw _ => []
               end.
Proof.
  destruct m as [l [a | e]]; cbn; [destruct (k a) | rewrite app_nil_r];
    reflexivity.
Qed.

Lemma returns_bind (m : M A) (k : A -> M B) :
  returns (bind m k)
  = match outcome m with
    | Normal a => returns (k a)
    | Throw _ => false
    end.
Proof.
  unfold returns. rewrite outcome_bind. destruct (outcome m); reflexivity.
Qed.

Lemma bind_ext (m : M A) (k k' : A -> M B) :
  (forall a, k a = k' a) -> bind m k = bind m k'.
Proof.
  intros H. destruct m as [l [a | e]]; cbn; [rewrite H |]; reflexivity.
Qed.

End MonadLaws.

Lemma M_eta {A} (m : M A) : m = (trace m, outcome m).
Proof. destruct m; reflexivity. Qed.

(** ** Strings *)

Lemma option_string_eqb_eq (a b : option string) :
  option_string_eqb a b = true <-> a = b.
Proof.
  destruct a as [x |], b as [y |]; cbn; try (split; congruence).
  rewrite String.eqb_eq. split; congruence.
Qed.

Lemma option_string_eqb_neq (a b : option string) :
  option_string_eqb a b = false <-> a <> b.
Proof.
  rewrite <- option_string_eqb_eq. destruct (option_string_eqb a b);
    split; congruence.
Qed.

Lemma present_Some (s : string) : App.present (Some s) = true <-> s <> "".
Proof.
  unfold App.present; cbn. rewrite negb_true_iff.
  destruct (String.eqb_spec s ""); split; congruence.
Qed.

Lemma strict_eq_string_eq (v : value) (s : string) :
  (v === s) = true <-> v = VString s.
Proof.
  destruct v; cbn; try (split; congruence).
  rewrite String.eqb_eq. split; congruence.
Qed.

Lemma strict_ne_string_neq (v : value) (s : string) :
  (v !== s) = true <-> v <> VString s.
Proof.
  unfold strict_ne_string. rewrite negb_true_iff, <- strict_eq_string_eq.
  destruct (v === s); split; congruence.
Qed.

(** ** verifyRequestSignature *)

Lemma verify_without_header (cfg : config) (req : request) (buf : string) :
  present (header "x-hub-signature-256" (headers req)) = false ->
  verifyRequestSignature cfg req buf = ([warning_missing_header], Normal tt).
Proof.
  intros H. unfold verifyRequestSignature. rewrite H. reflexivity.
Qed.

(** With the header there and a primary secret, the verifier is a cascade
    of at most two digest comparisons. *)
Lemma verify_with_header
  (cfg : config) (req : request) (buf s1 signature : string) :
  appSecret cfg = Some s1 ->
  header "x-hub-signature-256" (headers req) = Some signature ->
  signature <> "" ->
  verifyRequestSignature cfg req buf
  = if option_string_eqb (signatureHash signature)
                         (Some (Crypto.hmac_sha256_hex s1 buf))
    then ([createHmac s1 buf], Normal tt)
    else
      if present (igAppSecret cfg)
         && negb (option_string_eqb (igAppSecret cfg) (Some s1))
      then
        bind (perform (createHmac s1 buf))
          (fun _ => bind (hmac_hex (igAppSecret cfg) buf)
             (fun h2 => if option_string_eqb (signatureHash signature) (Some h2)
                        then ret tt
                        else signature_mismatch cfg (signatureHash signature)))
      else
        bind (perform (createHmac s1 buf))
          (fun _ => signature_mismatch cfg (signatureHash signature)).
Proof.
  intros Hs1 Hh Hne. unfold verifyRequestSignature.
  rewrite Hh. apply present_Some in Hne. rewrite Hne. cbn [negb].
  rewrite Hs1. unfold hmac_hex at 1.
  cbn -[signatureHash signature_mismatch hmac_hex].
  destruct (option_string_eqb (signatureHash signature) _) eqn:E1;
    [reflexivity |].
  destruct (present (igAppSecret cfg) && _) eqn:E2.
  - cbn -[signatureHash signature_mismatch hmac_hex].
    destruct (bind (hmac_hex _ _) _). reflexivity.
  - cbn -[signatureHash signature_mismatch hmac_hex].
      destruct (signature_mismatch _ _). reflexivity.
Qed.

(** Whatever happens after both comparisons have failed, the verifier does
    not return, computes no further digest and calls no handler. *)
Lemma signature_mismatch_throws (cfg : config) (h : option string) :
  returns (signature_mismatch cfg h) = false
  /\ digests (trace (signature_mismatch cfg h)) = []
  /\ handler_calls (trace (signature_mismatch cfg h)) = [].
Proof.
  unfold signature_mismatch, first_four.
  destruct (appSecret cfg), (igAppSecret cfg); cbn;
    repeat match goal with
           | |- context [if ?c then _ else _] => destruct c; cbn
           end; auto.
Qed.

Lemma signature_mismatch_error (cfg : config) (h : option string) (s1 s2 : string) :
  appSecret cfg = Some s1 -> igAppSecret cfg = Some s2 ->
  outcome (signature_mismatch cfg h)
  = Throw (Error "Couldn't validate the request signature.").
Proof.
  intros H1 H2. unfold signature_mismatch, first_four. rewrite H1, H2.
  cbn. destruct (negb _); reflexivity.
Qed.

Lemma verify_calls_no_handler (cfg : config) (req : request) (buf : string) :
  handler_calls (trace (verifyRequestSignature cfg req buf)) = [].
Proof.
  unfold verifyRequestSignature.
  destruct (negb _); [reflexivity |].
  set (h := signatureHash _). clearbody h.
  destruct (signature_mismatch_throws cfg h) as (_ & _ & Hm).
  destruct (signature_mismatch cfg h) as [lm cm]. cbn [trace fst] in Hm.
  unfold hmac_hex.
  destruct (appSecret cfg); [| reflexivity]. cbn.
  destruct (option_string_eqb h _); [reflexivity |].
  destruct (_ && _); [| exact Hm].
  destruct (igAppSecret cfg); [| reflexivity]. cbn.
  destruct (option_string_eqb h _); [reflexivity | exact Hm].
Qed.

(** On a request that [json()] takes, an exception of the verifier ends the
    request before the parser and the route. *)
Lemma handle_post_rejected
  (body_parser : request -> taken) (JSON_parse : string -> option value)
  (cfg : config) (req : request) (e : error) :
  body_parser req = ByJson ->
  outcome (verifyRequestSignature cfg req (rawBody req)) = Throw e ->
  handle_post body_parser JSON_parse cfg req
  = (trace (verifyRequestSignature cfg req (rawBody req)), Throw e).
Proof.
  intros Hj H. unfold handle_post, json. rewrite Hj.
  destruct (verifyRequestSignature cfg req (rawBody req)) as [l c].
  cbn in H. subst c. reflexivity.
Qed.

Lemma handle_post_verified
  (body_parser : request -> taken) (JSON_parse : string -> option value)
  (cfg : config) (req : request) (body : value) :
  body_parser req = ByJson ->
  outcome (verifyRequestSignature cfg req (rawBody req)) = Normal tt ->
  JSON_parse (rawBody req) = Some body ->
  handle_post body_parser JSON_parse cfg req
  = (trace (verifyRequestSignature cfg req (rawBody req))
       ++ trace (post_webhook body),
     outcome (post_webhook body)).
Proof.
  intros Hj H Hp. unfold handle_post, json. rewrite Hj, Hp.
  destruct (verifyRequestSignature cfg req (rawBody req)) as [l c].
  cbn in H. subst c. cbn. rewrite app_nil_r.
  destruct (post_webhook body). reflexivity.
Qed.

(** A request that passes [json()] unread reaches the route as it is: the
    verifier is not called. *)
Lemma handle_post_passed
  (body_parser : request -> taken) (JSON_parse : string -> option value)
  (cfg : config) (req : request) (body : value) :
  body_parser req = Passed body ->
  handle_post body_parser JSON_parse cfg req = post_webhook body.
Proof. intros H. unfold handle_post. rewrite H. reflexivity. Qed.

(** With two secrets configured, the outcome is decided by the two
    comparisons alone. *)
Lemma verify_two_secrets_outcome
  (cfg : config) (req : request) (buf s1 s2 signature : string) :
  appSecret cfg = Some s1 ->
  igAppSecret cfg = Some s2 ->
  s2 <> "" ->
  header "x-hub-signature-256" (headers req) = Some signature ->
  signature <> "" ->
  outcome (verifyRequestSignature cfg req buf)
  = if option_string_eqb (signatureHash signature)
                         (Some (Crypto.hmac_sha256_hex s1 buf))
       || option_string_eqb (signatureHash signature)
                            (Some (Crypto.hmac_sha256_hex s2 buf))
    then Normal tt
    else Throw signature_error.
Proof.
  intros H1 H2 Hs2 Hh Hsig.
  rewrite (verify_with_header cfg req buf s1 signature H1 Hh Hsig).
  destruct (option_string_eqb (signatureHash signature)
                              (Some (Crypto.hmac_sha256_hex s1 buf))) eqn:E1;
    [reflexivity |].
  rewrite H2. apply present_Some in Hs2. rewrite Hs2.
  cbn [andb orb option_string_eqb].
  destruct (String.eqb_spec s2 s1) as [-> | Hne]; cbn [negb].
  - rewrite E1, outcome_bind. cbn [outcome perform snd].
    apply (signature_mismatch_error cfg _ s1 s1); assumption.
  - rewrite !outcome_bind. cbn [outcome perform snd hmac_hex].
    rewrite outcome_bind. cbn -[signatureHash signature_mismatch].
    destruct (option_string_eqb (signatureHash signature)
                (Some (Crypto.hmac_sha256_hex s2 buf))); [reflexivity |].
    apply (signature_mismatch_error cfg _ s1 s2); assumption.
Qed.

(** C1.  With a primary and a secondary secret configured, and for every raw
    body and every signature header, the verifier returns normally exactly
    when the digest carried in the header (the piece after the equals sign)
    is the HMAC-SHA256 hex digest of the body under the primary or under the
    secondary secret.  When it is neither, the verifier throws the error
    "Couldn't validate the request signature.", and the request on whose
    body [json()] called it ends there: the pipeline fails with that error
    and no handler has been called. *)
Theorem verifier_accepts_exactly_matching_digests
  (cfg : config) (req : request) (buf s1 s2 signature : string) :
  appSecret cfg = Some s1 ->
  igAppSecret cfg = Some s2 ->
  s2 <> "" ->
  header "x-hub-signature-256" (headers req) = Some signature ->
  signature <> "" ->
  let carried := signatureHash signature in
  let matches :=
    carried = Some (Crypto.hmac_sha256_hex s1 buf)
    \/ carried = Some (Crypto.hmac_sha256_hex s2 buf) in
  (outcome (verifyRequestSignature cfg req buf) = Normal tt <-> matches)
  /\ (~ matches ->
      outcome (verifyRequestSignature cfg req buf) = Throw signature_error
      /\ forall (body_parser : request -> taken)
                (JSON_parse : string -> option value),
           body_parser req = ByJson ->
           rawBody req = buf ->
           outcome (handle_post body_parser JSON_parse cfg req)
           = Throw signature_error
           /\ handler_calls (trace (handle_post body_parser JSON_parse cfg req))
              = []).
Proof.
  intros H1 H2 Hs2 Hh Hsig carried matches.
  pose proof (verify_two_secrets_outcome cfg req buf s1 s2 signature
                H1 H2 Hs2 Hh Hsig) as Hout.
  fold carried in Hout.
  assert (Hm : option_string_eqb carried (Some (Crypto.hmac_sha256_hex s1 buf))
               || option_string_eqb carried (Some (Crypto.hmac_sha256_hex s2 buf))
               = true <-> matches).
  { rewrite orb_true_iff, !option_string_eqb_eq. reflexivity. }
  destruct (_ || _) eqn:E in Hout.
  - split; [split; intros _; [apply Hm; exact E | exact Hout] |].
    intros Hn. exfalso. apply Hn, Hm, E.
  - split.
    + split; [rewrite Hout; discriminate |].
      intros HM. apply Hm in HM. congruence.
    + intros _. split; [exact Hout |].
      intros body_parser JSON_parse Hj Hbuf. subst buf.
      rewrite (handle_post_rejected body_parser JSON_parse cfg req _ Hj Hout).
      split; [reflexivity | apply verify_calls_no_handler].
Qed.

(** C7.  A request without the signature header is not an error for the
    verifier: it logs one warning and returns, and no digest is computed or
    compared.  The request goes on to the route unverified: when [json()]
    takes it, after the warning, the route runs on the parsed body exactly
    as it would anyway; when it passes [json()] unread, the verifier is not
    even called and the route runs on the body it came with. *)
Theorem missing_header_proceeds_unverified
  (cfg : config) (req : request) (buf : string) :
  header "x-hub-signature-256" (headers req) = None ->
  verifyRequestSignature cfg req buf = ([warning_missing_header], Normal tt)
  /\ digests (trace (verifyRequestSignature cfg req buf)) = []
  /\ forall (body_parser : request -> taken)
            (JSON_parse : string -> option value),
       match body_parser req with
       | ByJson =>
           forall body : value,
             JSON_parse (rawBody req) = Some body ->
             handle_post body_parser JSON_parse cfg req
             = (warning_missing_header :: trace (post_webhook body),
                outcome (post_webhook body))
       | Passed body =>
           handle_post body_parser JSON_parse cfg req = post_webhook body
       end.
Proof.
  intros Hh.
  assert (Hp : present (header "x-hub-signature-256" (headers req)) = false)
    by (rewrite Hh; reflexivity).
  assert (Hv : forall b, verifyRequestSignature cfg req b
                         = ([warning_missing_header], Normal tt))
    by (intros b; apply verify_without_header, Hp).
  split; [apply Hv |]. split; [rewrite Hv; reflexivity |].
  intros body_parser JSON_parse.
  destruct (body_parser req) as [| passed] eqn:Hj.
  - intros body Hparse.
    rewrite (handle_post_verified body_parser JSON_parse cfg req body);
      rewrite ?Hv; auto.
  - apply (handle_post_passed _ _ _ _ _ Hj).
Qed.

(** C8.  When the secondary secret equals the primary one, or is absent
    (not set, or empty), the second comparison is skipped: at most one
    digest is computed, under the primary secret, and on every body and
    header the verifier accepts exactly when single-secret verification
    under the primary secret does. *)
Theorem redundant_secondary_is_skipped
  (cfg : config) (req : request) (buf s1 : string) :
  appSecret cfg = Some s1 ->
  igAppSecret cfg = Some s1 \/ present (igAppSecret cfg) = false ->
  returns (verifyRequestSignature cfg req buf)
  = Spec.single_secret_accepts s1 req buf
  /\ (digests (trace (verifyRequestSignature cfg req buf)) = []
      \/ digests (trace (verifyRequestSignature cfg req buf))
         = [createHmac s1 buf]).
Proof.
  intros H1 Hig. unfold Spec.single_secret_accepts.
  destruct (header "x-hub-signature-256" (headers req)) as [signature |] eqn:Hh.
  - destruct (String.eqb_spec signature "") as [-> | Hne].
    + rewrite verify_without_header by (rewrite Hh; reflexivity).
      split; [reflexivity | left; reflexivity].
    + rewrite (verify_with_header cfg req buf s1 signature H1 Hh Hne).
      assert (Hskip : present (igAppSecret cfg)
                      && negb (option_string_eqb (igAppSecret cfg) (Some s1))
                      = false).
      { destruct Hig as [-> | ->]; [| reflexivity].
        cbn [option_string_eqb]. rewrite String.eqb_refl. apply andb_false_r. }
      rewrite Hskip.
      destruct (option_string_eqb (signatureHash signature) _);
        [split; [reflexivity | right; reflexivity] |].
      destruct (signature_mismatch_throws cfg (signatureHash signature))
        as (Hr & Hd & _).
      unfold returns in *. rewrite outcome_bind, trace_bind.
      cbn [perform outcome trace fst snd app].
      split; [exact Hr | right].
      unfold digests in *. cbn [filter is_digest]. rewrite Hd. reflexivity.
  - rewrite verify_without_header by (rewrite Hh; reflexivity).
    split; [reflexivity | left; reflexivity].
Qed.

(** ** The header is split at its equals signs *)

Lemma split_at_first (sep : ascii) (p rest : string) :
  Spec.free_of sep p = true ->
  split sep (p ++ String sep rest) = p :: split sep rest.
Proof.
  unfold Spec.free_of. induction p as [| c p IH]; cbn; intros H.
  - rewrite Ascii.eqb_refl. reflexivity.
  - apply andb_true_iff in H as [Hc Hp]. apply negb_true_iff in Hc.
    rewrite Hc, (IH Hp). reflexivity.
Qed.

Lemma split_free (sep : ascii) (s : string) :
  Spec.free_of sep s = true -> split sep s = [s].
Proof.
  unfold Spec.free_of. induction s as [| c s IH]; cbn; intros H;
    [reflexivity |].
  apply andb_true_iff in H as [Hc Hs]. apply negb_true_iff in Hc.
  rewrite Hc, (IH Hs). reflexivity.
Qed.

Lemma split_nonempty (sep : ascii) (s : string) : split sep s <> [].
Proof.
  destruct s as [| c s]; cbn; [discriminate |].
  destruct (Ascii.eqb c sep); [discriminate |].
  destruct (split sep s); discriminate.
Qed.

(** The digest the verifier reads from [prefix=rest] is the first piece of
    [rest], whatever the prefix. *)
Lemma signatureHash_prefix (prefix rest : string) :
  Spec.free_of equals_sign prefix = true ->
  signatureHash (prefix ++ "=" ++ rest) = hd_error (split equals_sign rest).
Proof.
  intros H. unfold signatureHash.
  change ("=" ++ rest)%string with (String equals_sign rest).
  rewrite (split_at_first _ _ _ H). cbn [nth_error].
  destruct (split equals_sign rest); reflexivity.
Qed.

(** A header of the documented form [sha256=<hex>] carries [<hex>]. *)
Lemma signatureHash_well_formed (prefix digest : string) :
  Spec.free_of equals_sign prefix = true ->
  Spec.free_of equals_sign digest = true ->
  signatureHash (prefix ++ "=" ++ digest) = Some digest.
Proof.
  intros Hp Hd. rewrite (signatureHash_prefix _ _ Hp), (split_free _ _ Hd).
  reflexivity.
Qed.

Lemma prefixed_not_empty (prefix rest : string) :
  (prefix ++ "=" ++ rest)%string <> "".
Proof. destruct prefix; discriminate. Qed.

(** The verifier reads the header only through its presence and through
    [signatureHash]. *)
Lemma verify_reads_signatureHash
  (cfg : config) (req1 req2 : request) (buf sig1 sig2 : string) :
  header "x-hub-signature-256" (headers req1) = Some sig1 ->
  header "x-hub-signature-256" (headers req2) = Some sig2 ->
  sig1 <> "" -> sig2 <> "" ->
  signatureHash sig1 = signatureHash sig2 ->
  verifyRequestSignature cfg req1 buf = verifyRequestSignature cfg req2 buf.
Proof.
  intros H1 H2 N1 N2 E. unfold verifyRequestSignature.
  rewrite H1, H2. apply present_Some in N1, N2. rewrite N1, N2, E.
  reflexivity.
Qed.

(** C9.  The algorithm part of the header is never looked at: two headers
    [prefix1=rest] and [prefix2=rest] give the same run of the verifier
    (same log, same outcome), so acceptance depends only on what follows
    the first equals sign; and a header [prefix=<hex>] whose hex part is the
    HMAC-SHA256 digest of the body under the primary secret is accepted
    whatever the prefix is, "md5" as well as "sha256". *)
Theorem algorithm_prefix_is_not_validated
  (cfg : config) (buf prefix1 prefix2 rest : string) :
  Spec.free_of equals_sign prefix1 = true ->
  Spec.free_of equals_sign prefix2 = true ->
  (forall req1 req2 : request,
     header "x-hub-signature-256" (headers req1) = Some (prefix1 ++ "=" ++ rest)%string ->
     header "x-hub-signature-256" (headers req2) = Some (prefix2 ++ "=" ++ rest)%string ->
     verifyRequestSignature cfg req1 buf = verifyRequestSignature cfg req2 buf)
  /\ (forall (req : request) (s1 : string),
        appSecret cfg = Some s1 ->
        header "x-hub-signature-256" (headers req)
        = Some (prefix1 ++ "=" ++ Crypto.hmac_sha256_hex s1 buf)%string ->
        outcome (verifyRequestSignature cfg req buf) = Normal tt).
Proof.
  intros Hp1 Hp2. split.
  - intros req1 req2 H1 H2.
    apply (verify_reads_signatureHash cfg req1 req2 buf _ _ H1 H2);
      try apply prefixed_not_empty.
    rewrite !signatureHash_prefix by assumption. reflexivity.
  - intros req s1 Hs1 Hh.
    rewrite (verify_with_header cfg req buf s1 _ Hs1 Hh)
      by apply prefixed_not_empty.
    rewrite (signatureHash_well_formed _ _ Hp1 (hmac_free_of_equals s1 buf)).
    cbn [option_string_eqb]. rewrite String.eqb_refl. reflexivity.
Qed.

(** ** The verifier on the sample requests *)

Lemma verifier_accepts_exactly_matching_digests_witness :
  outcome (verifyRequestSignature Samples.two_secrets Samples.signed_by_secondary "{}")
  = Normal tt.
Proof.
  pose proof
    (verifier_accepts_exactly_matching_digests
       Samples.two_secrets Samples.signed_by_secondary "{}" "s1" "s2"
       "sha256=3d131e1c597a4c93db1df1031dfdb3789e334d8f1f5e0254477170ee24cb2fa4"
       eq_refl eq_refl ltac:(discriminate) eq_refl ltac:(discriminate)) as H.
  cbv zeta in H. apply (proj1 H). right. vm_compute. reflexivity.
Defined.

Lemma missing_header_proceeds_unverified_witness :
  verifyRequestSignature Samples.two_secrets Samples.unsigned "{}"
  = ([warning_missing_header], Normal tt).
Proof.
  apply (missing_header_proceeds_unverified
           Samples.two_secrets Samples.unsigned "{}").
  reflexivity.
Defined.

Lemma redundant_secondary_is_skipped_witness :
  returns (verifyRequestSignature Samples.one_secret Samples.signed_by_secondary "{}")
  = Spec.single_secret_accepts "s1" Samples.signed_by_secondary "{}".
Proof.
  apply (redundant_secondary_is_skipped
           Samples.one_secret Samples.signed_by_secondary "{}" "s1").
  - reflexivity.
  - right. reflexivity.
Defined.

Lemma algorithm_prefix_is_not_validated_witness :
  verifyRequestSignature Samples.two_secrets Samples.signed_md5_prefix "{}"
  = verifyRequestSignature Samples.two_secrets Samples.signed_sha256_prefix "{}".
Proof.
  apply (algorithm_prefix_is_not_validated
           Samples.two_secrets "{}" "md5" "sha256"
           "d3bcb03fd921378bcebcb82a3a816fa98bc2f0da108f86196b35827d56dedf89");
    reflexivity.
Defined.

(** The header ["md5=<digest under s1>"] is accepted. *)
(** A form-encoded request is read by [urlencoded()] and passes [json()]
    unread: its signature is never checked, whatever the header says, and
    its body reaches the handler. *)
Example form_encoded_post_is_not_verified (JSON_parse : string -> option value) :
  handle_post
    (fun _ =>
       Passed
         (VObject
            [("object", VString "instagram");
             ("entry",
              VArray
                [VObject
                   [("id", VString "98765");
                    ("messaging",
                     VArray
                       [VObject
                          [("message", VObject [("text", VString "hi")])]])]])]))
    JSON_parse Samples.two_secrets
    (mkRequest
       [("content-type", "application/x-www-form-urlencoded");
        ("x-hub-signature-256", "sha256=00")]
       "object=instagram&entry[0][id]=98765&entry[0][messaging][0][message][text]=hi")
  = ([handleInstagramMessage (VString "98765")
        (VObject [("message", VObject [("text", VString "hi")])])],
     Normal acknowledged).
Proof. reflexivity. Qed.

Example md5_prefix_accepted :
  verifyRequestSignature Samples.two_secrets Samples.signed_md5_prefix "{}"
  = ([createHmac "s1" "{}"], Normal tt).
Proof. vm_compute. reflexivity. Qed.

(** A digest that matches under neither secret is refused. *)
Example wrong_digest_rejected :
  outcome
    (verifyRequestSignature Samples.two_secrets
       (mkRequest [("x-hub-signature-256", "sha256=00")] "{}") "{}")
  = Throw signature_error.
Proof. vm_compute. reflexivity. Qed.

(** Without a secondary secret, a mismatch ends in the [TypeError] of
    [config.igAppSecret.substring] (line 194), not in the signature error. *)
Example mismatch_without_secondary :
  outcome (verifyRequestSignature Samples.one_secret Samples.signed_by_secondary "{}")
  = Throw (TypeError "Cannot read properties of undefined (reading 'substring')").
Proof. vm_compute. reflexivity. Qed.

(** ** Property reads *)

Lemma get_prop (v : value) (k : string) :
  nullish v = false -> get v k = ret (prop k v).
Proof. destruct v; cbn; intros H; try discriminate; reflexivity. Qed.

Lemma get_nullish (v : value) (k : string) :
  nullish v = true -> trace (get v k) = [] /\ returns (get v k) = false.
Proof. destruct v; cbn; intros H; try discriminate; split; reflexivity. Qed.

Lemma get_pure (v : value) (k : string) : trace (get v k) = [].
Proof. destruct v; reflexivity. Qed.

Lemma truthy_not_nullish (v : value) : truthy v = true -> nullish v = false.
Proof. destruct v; cbn; intros H; try discriminate; reflexivity. Qed.

(** Rewriting a read from a value that is known not to be nullish. *)
Ltac read_props :=
  repeat (rewrite bind_ret
          || rewrite get_prop
               by (assumption || (apply truthy_not_nullish; assumption))).

(** ** new Message(rawMessage) *)

Lemma sender_of_total (rawMessage : value) :
  nullish rawMessage = false ->
  Message.sender_of rawMessage = ret (Spec.sender_value rawMessage).
Proof.
  intros H. unfold Message.sender_of, Spec.sender_value. read_props.
  destruct (truthy (prop "from" rawMessage)); [reflexivity |].
  read_props.
  destruct (truthy (prop "sender" rawMessage)) eqn:E; [| reflexivity].
  read_props. reflexivity.
Qed.

Lemma constructor_unfold (rawMessage : value) :
  nullish rawMessage = false ->
  Message.constructor rawMessage
  = bind (Message.type_and_text rawMessage)
      (fun resolved =>
         ret (Message.mk (prop "id" rawMessage) (fst resolved) (snd resolved)
                (Spec.sender_value rawMessage))).
Proof.
  intros H. unfold Message.constructor. read_props.
  apply bind_ext. intros resolved. rewrite (sender_of_total _ H), bind_ret.
  reflexivity.
Qed.

(** The four branches of the type resolution, on an event from which
    properties can be read. *)
Lemma type_and_text_interactive (rawMessage : value) :
  nullish rawMessage = false ->
  prop "type" rawMessage = VString "interactive" ->
  nullish (prop "interactive" rawMessage) = false ->
  nullish (prop "button_reply" (prop "interactive" rawMessage)) = false ->
  Message.type_and_text rawMessage
  = ret (prop "id" (prop "button_reply" (prop "interactive" rawMessage)),
         VUndefined).
Proof.
  intros H Ht Hi Hb. unfold Message.type_and_text. read_props.
  rewrite Ht. cbn [strict_eq_string]. rewrite String.eqb_refl.
  read_props. reflexivity.
Qed.

Lemma type_and_text_other (rawMessage : value) :
  nullish rawMessage = false ->
  prop "type" rawMessage <> VString "interactive" ->
  Message.type_and_text rawMessage
  = ret (let text := prop "text" rawMessage in
         let message := prop "message" rawMessage in
         if truthy text then
           (VString "text",
            if truthy (prop "body" text) then prop "body" text else text)
         else if truthy message && truthy (prop "text" message) then
           (VString "text", prop "text" message)
         else (VString "unknown", VUndefined)).
Proof.
  intros H Ht. unfold Message.type_and_text. read_props.
  apply strict_ne_string_neq in Ht. unfold strict_ne_string in Ht.
  apply negb_true_iff in Ht. rewrite Ht. read_props. cbv zeta.
  destruct (truthy (prop "text" rawMessage)) eqn:Etext.
  - read_props. reflexivity.
  - read_props.
    destruct (truthy (prop "message" rawMessage)) eqn:Emsg; cbn [andb].
    + read_props.
      destruct (truthy (prop "text" (prop "message" rawMessage)));
        read_props; reflexivity.
    + rewrite bind_ret, Emsg. reflexivity.
Qed.

(** C3, as the code has it.  On a raw event object the type is resolved by
    first match: an event whose [type] is "interactive" and that carries
    [interactive.button_reply] gets the reply id itself as its type;
    otherwise (the [type] field is not "interactive") an event with a direct
    text field gets type "text", with text equal to the body content when
    that is truthy and to the text field itself when it is not; otherwise a
    nested message with text gets type "text" and the nested text; otherwise
    the type is "unknown". *)
Theorem type_resolution_first_match (rawMessage : value) :
  nullish rawMessage = false ->
  let type := prop "type" rawMessage in
  let text := prop "text" rawMessage in
  let message := prop "message" rawMessage in
  let interactive := prop "interactive" rawMessage in
  let built (ty tx : value) :=
    exists m, Message.constructor rawMessage = ([], Normal m)
              /\ Message.type m = ty /\ Message.text m = tx in
  (type = VString "interactive" ->
   nullish interactive = false ->
   nullish (prop "button_reply" interactive) = false ->
   built (prop "id" (prop "button_reply" interactive)) VUndefined)
  /\ (type <> VString "interactive" ->
      truthy text = true ->
      built (VString "text")
            (if truthy (prop "body" text) then prop "body" text else text))
  /\ (type <> VString "interactive" ->
      truthy text = false ->
      truthy message = true ->
      truthy (prop "text" message) = true ->
      built (VString "text") (prop "text" message))
  /\ (type <> VString "interactive" ->
      truthy text = false ->
      truthy message = false \/ truthy (prop "text" message) = false ->
      built (VString "unknown") VUndefined).
Proof.
  intros H type text message interactive built. subst built. cbv beta.
  rewrite (constructor_unfold _ H).
  split; [| split; [| split]].
  - intros Ht Hi Hb.
    rewrite (type_and_text_interactive _ H Ht Hi Hb), bind_ret.
    eexists; repeat split.
  - intros Ht Htext.
    rewrite (type_and_text_other _ H Ht), bind_ret. cbv zeta.
    fold text. rewrite Htext. eexists; repeat split.
  - intros Ht Htext Hm Hmt.
    rewrite (type_and_text_other _ H Ht), bind_ret. cbv zeta.
    fold text message. rewrite Htext, Hm, Hmt. eexists; repeat split.
  - intros Ht Htext Hm.
    rewrite (type_and_text_other _ H Ht), bind_ret. cbv zeta.
    fold text message. rewrite Htext.
    assert (E : truthy message && truthy (prop "text" message) = false)
      by (destruct Hm as [-> | ->]; [reflexivity | apply andb_false_r]).
    rewrite E. eexists; repeat split.
Qed.

Lemma type_resolution_first_match_witness :
  exists m,
    Message.constructor Samples.button_reply_message = ([], Normal m)
    /\ Message.type m = VString "BUY_NOW" /\ Message.text m = VUndefined.
Proof.
  apply (type_resolution_first_match Samples.button_reply_message eq_refl);
    reflexivity.
Defined.

(** The direct-text example of the specification. *)
Example direct_text_hi :
  Message.constructor Samples.direct_text_message
  = ([], Normal (Message.mk VUndefined (VString "text") (VString "hi") VUndefined)).
Proof. reflexivity. Qed.

Example neither_shape_unknown :
  Message.constructor (VObject [("id", VString "wamid.3")])
  = ([], Normal (Message.mk (VString "wamid.3") (VString "unknown")
                            VUndefined VUndefined)).
Proof. reflexivity. Qed.

(** A text field that is a plain string is its own text. *)
Example plain_text_kept :
  Message.constructor Samples.plain_text_message
  = ([], Normal (Message.mk VUndefined (VString "text") (VString "hi") VUndefined)).
Proof. reflexivity. Qed.

(** C3 as stated fails on [{ text: { body: "" } }]: the event has a direct
    text field whose body content is the empty string, and the normalized
    text is the text object, not that content.  It also fails on a list
    reply, which is no button reply and has neither text shape: the type is
    not "unknown", the constructor throws. *)
Lemma empty_body_is_not_the_text :
  (exists m,
     Message.constructor Samples.empty_text_message = ([], Normal m)
     /\ Message.type m = VString "text"
     /\ prop "body" (prop "text" Samples.empty_text_message) = VString ""
     /\ Message.text m = VObject [("body", VString "")]
     /\ Message.text m <> prop "body" (prop "text" Samples.empty_text_message))
  /\ (prop "button_reply" (prop "interactive" Samples.list_reply_message)
      = VUndefined
      /\ truthy (prop "text" Samples.list_reply_message) = false
      /\ truthy (prop "message" Samples.list_reply_message) = false
      /\ returns (Message.constructor Samples.list_reply_message) = false).
Proof.
  split.
  - eexists. repeat split. cbn. discriminate.
  - repeat split.
Qed.

(** C6, as the code has it.  On a raw event object whose [type] is not
    "interactive", or which carries [interactive.button_reply], the
    constructor returns normally, without any effect, and the sender is the
    [from] field if that is truthy, else [sender.id] if there is a sender,
    else [undefined]; an undefined sender is a valid output. *)
Theorem constructor_returns_with_sender (rawMessage : value) :
  nullish rawMessage = false ->
  prop "type" rawMessage <> VString "interactive"
  \/ (nullish (prop "interactive" rawMessage) = false
      /\ nullish (prop "button_reply" (prop "interactive" rawMessage)) = false) ->
  exists m,
    Message.constructor rawMessage = ([], Normal m)
    /\ Message.senderPhoneNumber m
       = (if truthy (prop "from" rawMessage) then prop "from" rawMessage
          else if truthy (prop "sender" rawMessage)
               then prop "id" (prop "sender" rawMessage)
               else VUndefined).
Proof.
  intros H Hshape. rewrite (constructor_unfold _ H).
  destruct (strict_eq_string (prop "type" rawMessage) "interactive") eqn:Et.
  - apply strict_eq_string_eq in Et.
    destruct Hshape as [Hne | [Hi Hb]]; [contradiction |].
    rewrite (type_and_text_interactive _ H Et Hi Hb), bind_ret.
    eexists; split; reflexivity.
  - assert (Hne : prop "type" rawMessage <> VString "interactive").
    { intros E. apply strict_eq_string_eq in E. congruence. }
    rewrite (type_and_text_other _ H Hne), bind_ret.
    eexists; split; reflexivity.
Qed.

Lemma constructor_returns_with_sender_witness :
  exists m,
    Message.constructor Samples.direct_text_message = ([], Normal m)
    /\ Message.senderPhoneNumber m = VUndefined.
Proof.
  apply (constructor_returns_with_sender Samples.direct_text_message eq_refl).
  left. discriminate.
Defined.

(** C6 as stated fails on a list reply: the event says "interactive", there
    is no [button_reply], and the constructor throws. *)
Lemma list_reply_makes_constructor_throw :
  Message.constructor Samples.list_reply_message
  = ([], Throw (TypeError "Cannot read properties of undefined (reading 'id')")).
Proof. reflexivity. Qed.

(** ** The dispatcher: when it returns *)

Lemma returns_get_bind {B} (v : value) (k : string) (f : value -> M B) :
  returns (bind (get v k) f) = negb (nullish v) && returns (f (prop k v)).
Proof.
  rewrite returns_bind.
  destruct v; cbn; reflexivity.
Qed.

Lemma returns_each {A} (f : A -> M unit) (l : list A) :
  returns (each f l) = forallb (fun x => returns (f x)) l.
Proof.
  induction l as [| x l IH]; [reflexivity |].
  cbn [each forallb]. rewrite returns_bind, <- IH.
  unfold returns at 2. destruct (outcome (f x)); reflexivity.
Qed.

Lemma returns_forEach (v : value) (f : value -> M unit) :
  returns (forEach v f) = Spec.array_of (fun x => returns (f x)) v.
Proof.
  destruct v; try reflexivity. cbn [forEach Spec.array_of]. apply returns_each.
Qed.

Lemma array_of_ext (p q : value -> bool) (v : value) :
  (forall x, p x = q x) -> Spec.array_of p v = Spec.array_of q v.
Proof.
  intros H. destruct v; try reflexivity. cbn.
  induction elems as [| x l IH]; [reflexivity |]. cbn. rewrite H, IH.
  reflexivity.
Qed.

Lemma returns_optional_forEach (v : value) (f : value -> M unit) :
  (forall x, returns (f x) = true) ->
  returns (if truthy v then forEach v f else ret tt) = Spec.optional_array v.
Proof.
  intros H. unfold Spec.optional_array.
  destruct (truthy v); [| reflexivity].
  rewrite returns_forEach. cbn [negb orb]. apply array_of_ext, H.
Qed.

Lemma returns_whatsapp_change (change : value) :
  returns (whatsapp_change change) = Spec.whatsapp_change_ok change.
Proof.
  unfold whatsapp_change, Spec.whatsapp_change_ok.
  rewrite returns_get_bind. f_equal. cbv zeta.
  destruct (truthy (prop "value" change)) eqn:E; [| reflexivity].
  cbn [negb orb].
  rewrite (get_prop _ "metadata") by (apply truthy_not_nullish, E).
  rewrite bind_ret, returns_get_bind.
  rewrite (get_prop _ "statuses") by (apply truthy_not_nullish, E).
  rewrite bind_ret, returns_bind.
  rewrite <- (returns_optional_forEach (prop "statuses" (prop "value" change))
                (Conversation.handleStatus
                   (prop "phone_number_id" (prop "metadata" (prop "value" change)))))
    by reflexivity.
  unfold returns at 2.
  destruct (outcome (if truthy (prop "statuses" _) then _ else _));
    [| rewrite andb_false_r; reflexivity].
  rewrite (get_prop _ "messages") by (apply truthy_not_nullish, E).
  rewrite bind_ret, andb_true_r.
  rewrite returns_optional_forEach by reflexivity. reflexivity.
Qed.

Lemma returns_whatsapp_entry (entry : value) :
  returns (whatsapp_entry entry) = Spec.whatsapp_entry_ok entry.
Proof.
  unfold whatsapp_entry, Spec.whatsapp_entry_ok.
  rewrite returns_get_bind, returns_forEach. f_equal.
  apply array_of_ext, returns_whatsapp_change.
Qed.

Lemma businessId_entry_id (entry messagingEvent : value) :
  nullish entry = false ->
  Spec.entry_id_usable entry = true ->
  businessId entry messagingEvent = ret (prop "id" entry).
Proof.
  intros H Hu. unfold businessId. rewrite (get_prop _ _ H), bind_ret.
  unfold Spec.entry_id_usable in Hu. rewrite Hu. reflexivity.
Qed.

Lemma businessId_recipient (entry messagingEvent : value) :
  nullish entry = false ->
  Spec.entry_id_usable entry = false ->
  businessId entry messagingEvent
  = bind (get messagingEvent "recipient") (fun recipient => get recipient "id").
Proof.
  intros H Hu. unfold businessId. rewrite (get_prop _ _ H), bind_ret.
  unfold Spec.entry_id_usable in Hu. rewrite Hu. reflexivity.
Qed.

(** Once the business id is known and the event can be read, the rest of the
    messaging callback returns. *)
Lemma messaging_dispatch_returns (b messagingEvent : value) :
  nullish messagingEvent = false ->
  returns
    (message <- get messagingEvent "message" ;;
     if truthy message then
       Conversation.handleInstagramMessage b messagingEvent
     else
       delivery <- get messagingEvent "delivery" ;;
       delivery_or_read <-
         (if truthy delivery then ret delivery else get messagingEvent "read") ;;
       if truthy delivery_or_read then
         Conversation.handleInstagramStatus b messagingEvent
       else ret tt)
  = true.
Proof.
  intros H. read_props.
  destruct (truthy (prop "message" messagingEvent)); [reflexivity |].
  read_props. destruct (truthy (prop "delivery" messagingEvent)) eqn:Ed.
  - read_props. rewrite Ed. reflexivity.
  - read_props. destruct (truthy (prop "read" messagingEvent)); reflexivity.
Qed.

Lemma returns_instagram_messaging (entry messagingEvent : value) :
  nullish entry = false ->
  returns (instagram_messaging entry messagingEvent)
  = Spec.instagram_messaging_ok entry messagingEvent.
Proof.
  intros H. unfold instagram_messaging, Spec.instagram_messaging_ok.
  destruct (nullish messagingEvent) eqn:En.
  - cbn [negb andb].
    destruct (Spec.entry_id_usable entry) eqn:Eu.
    + rewrite (businessId_entry_id _ _ H Eu), bind_ret, returns_get_bind, En.
      reflexivity.
    + rewrite (businessId_recipient _ _ H Eu), returns_bind, outcome_bind.
      destruct messagingEvent; try discriminate; reflexivity.
  - cbn [negb andb].
    destruct (Spec.entry_id_usable entry) eqn:Eu.
    + rewrite (businessId_entry_id _ _ H Eu), bind_ret.
      apply messaging_dispatch_returns, En.
    + rewrite (businessId_recipient _ _ H Eu).
      rewrite (get_prop _ "recipient" En), bind_ret. cbn [orb].
      destruct (nullish (prop "recipient" messagingEvent)) eqn:Er.
      * rewrite returns_bind.
        destruct (prop "recipient" messagingEvent); try discriminate;
          reflexivity.
      * rewrite (get_prop _ "id" Er), bind_ret.
        apply messaging_dispatch_returns, En.
Qed.

Lemma returns_instagram_change (entry change : value) :
  nullish entry = false ->
  returns (instagram_change entry change) = Spec.instagram_change_ok entry change.
Proof.
  intros H. unfold instagram_change, Spec.instagram_change_ok.
  rewrite returns_get_bind. f_equal.
  destruct (prop "field" change === "messages"); [| reflexivity].
  cbn [negb orb].
  destruct (nullish change) eqn:Ec.
  - destruct change; try discriminate; reflexivity.
  - rewrite (get_prop _ "value" Ec), !bind_ret.
    destruct (nullish (prop "value" change)) eqn:Ev.
    + destruct (prop "value" change); try discriminate; reflexivity.
    + cbn [negb andb]. read_props.
      destruct (Spec.entry_id_usable entry) eqn:Eu.
      * rewrite (businessId_entry_id _ _ H Eu), bind_ret. reflexivity.
      * rewrite (businessId_recipient _ _ H Eu). cbn [orb].
        rewrite get_prop by reflexivity. rewrite bind_ret.
        cbn [prop own String.eqb Ascii.eqb Bool.eqb].
        destruct (nullish (prop "recipient" (prop "value" change))) eqn:Er.
        -- rewrite returns_bind.
           destruct (prop "recipient" (prop "value" change));
             try discriminate; reflexivity.
        -- rewrite (get_prop _ "id" Er), bind_ret. reflexivity.
Qed.

Lemma returns_instagram_entry (entry : value) :
  returns (instagram_entry entry) = Spec.instagram_entry_ok entry.
Proof.
  unfold instagram_entry, Spec.instagram_entry_ok.
  rewrite returns_get_bind.
  destruct (nullish entry) eqn:H; [reflexivity |]. cbn [negb andb].
  destruct (truthy (prop "messaging" entry)).
  - rewrite returns_forEach.
    apply array_of_ext. intros x. apply returns_instagram_messaging, H.
  - rewrite (get_prop _ _ H), bind_ret.
    destruct (truthy (prop "changes" entry)); [| reflexivity].
    rewrite returns_forEach. cbn [negb orb].
    apply array_of_ext. intros x. apply returns_instagram_change, H.
Qed.

(** The route acknowledges exactly the payloads of the shape it reads. *)
Lemma returns_post_webhook (body : value) :
  returns (post_webhook body) = Spec.well_shaped body.
Proof.
  unfold post_webhook, Spec.well_shaped.
  rewrite returns_get_bind. f_equal.
  rewrite returns_bind.
  destruct (prop "object" body === "whatsapp_business_account").
  - rewrite <- (array_of_ext _ _ _ returns_whatsapp_entry).
    rewrite <- returns_forEach.
    destruct (nullish body) eqn:H.
    + destruct body; try discriminate; reflexivity.
    + rewrite (get_prop _ _ H), bind_ret. unfold returns.
      destruct (outcome (forEach _ _)); reflexivity.
  - destruct (prop "object" body === "instagram"); [| reflexivity].
    rewrite <- (array_of_ext _ _ _ returns_instagram_entry).
    rewrite <- returns_forEach.
    destruct (nullish body) eqn:H.
    + destruct body; try discriminate; reflexivity.
    + rewrite (get_prop _ _ H), bind_ret. unfold returns.
      destruct (outcome (forEach _ _)); reflexivity.
Qed.

(** ** The dispatcher: which handlers it calls *)

Lemma in_trace_bind {A B} (m : M A) (k : A -> M B) (e : effect) :
  In e (trace (bind m k)) ->
  In e (trace m) \/ exists a, outcome m = Normal a /\ In e (trace (k a)).
Proof.
  rewrite trace_bind, in_app_iff. intros [H | H]; [left; exact H |].
  destruct (outcome m) as [a | err]; [right; eauto | contradiction].
Qed.

Lemma in_trace_each {A} (f : A -> M unit) (l : list A) (e : effect) :
  In e (trace (each f l)) -> exists x, In x l /\ In e (trace (f x)).
Proof.
  induction l as [| x l IH]; cbn [each]; [intros [] |].
  intros H. apply in_trace_bind in H as [H | (_ & _ & H)].
  - exists x. split; [left; reflexivity | exact H].
  - destruct (IH H) as (y & Hy & He). exists y. split; [right |]; assumption.
Qed.

Lemma in_trace_forEach (v : value) (f : value -> M unit) (e : effect) :
  In e (trace (forEach v f)) ->
  exists elems x, v = VArray elems /\ In x elems /\ In e (trace (f x)).
Proof.
  destruct v; cbn; try contradiction.
  intros H. apply in_trace_each in H as (x & Hx & He). eauto.
Qed.

Lemma in_trace_get_bind {B} (v : value) (k : string) (f : value -> M B)
  (e : effect) :
  In e (trace (bind (get v k) f)) ->
  nullish v = false /\ In e (trace (f (prop k v))).
Proof.
  destruct v; cbn; try contradiction; rewrite <- ?M_eta; auto;
    destruct (f _); cbn; auto.
Qed.

Lemma businessId_pure (entry messagingEvent : value) :
  trace (businessId entry messagingEvent) = [].
Proof.
  unfold businessId. rewrite trace_bind, get_pure.
  destruct (outcome (get entry "id")) as [id |]; [| reflexivity].
  destruct (truthy id && _); [reflexivity |].
  rewrite trace_bind, get_pure.
  destruct (outcome (get messagingEvent "recipient")); [| reflexivity].
  apply get_pure.
Qed.

Lemma entry_id_usable_iff (entry : value) :
  Spec.entry_id_usable entry = true
  <-> truthy (prop "id" entry) = true /\ prop "id" entry <> VString "0".
Proof.
  unfold Spec.entry_id_usable.
  rewrite andb_true_iff, strict_ne_string_neq. reflexivity.
Qed.

(** The business id, whenever one is computed. *)
Lemma businessId_resolved (entry messagingEvent b : value) :
  outcome (businessId entry messagingEvent) = Normal b ->
  b = if Spec.entry_id_usable entry then prop "id" entry
      else prop "id" (prop "recipient" messagingEvent).
Proof.
  destruct (nullish entry) eqn:H.
  { destruct entry; discriminate. }
  destruct (Spec.entry_id_usable entry) eqn:Eu.
  - rewrite (businessId_entry_id _ _ H Eu). cbn. congruence.
  - rewrite (businessId_recipient _ _ H Eu).
    destruct (nullish messagingEvent) eqn:En.
    { destruct messagingEvent; discriminate. }
    rewrite (get_prop _ _ En), bind_ret.
    destruct (nullish (prop "recipient" messagingEvent)) eqn:Er.
    { destruct (prop "recipient" messagingEvent); discriminate. }
    rewrite (get_prop _ _ Er). cbn. congruence.
Qed.

Lemma instagram_messaging_calls (entry messagingEvent : value) (e : effect) :
  In e (trace (instagram_messaging entry messagingEvent)) ->
  exists b,
    outcome (businessId entry messagingEvent) = Normal b
    /\ (e = handleInstagramMessage b messagingEvent
        \/ e = handleInstagramStatus b messagingEvent).
Proof.
  unfold instagram_messaging. intros H.
  apply in_trace_bind in H as [H | (b & Hb & H)];
    [rewrite businessId_pure in H; contradiction |].
  exists b. split; [exact Hb |].
  apply in_trace_get_bind in H as [En H].
  destruct (truthy (prop "message" messagingEvent)).
  - destruct H as [<- | []]. left; reflexivity.
  - apply in_trace_get_bind in H as [_ H].
    apply in_trace_bind in H as [H | (d & _ & H)].
    + destruct (truthy (prop "delivery" messagingEvent));
        [contradiction | rewrite get_pure in H; contradiction].
    + destruct (truthy d); [| contradiction].
      destruct H as [<- | []]. right; reflexivity.
Qed.

Lemma businessId_value (entry messagingEvent : value) :
  nullish entry = false ->
  Spec.entry_id_usable entry
  || negb (nullish messagingEvent)
     && negb (nullish (prop "recipient" messagingEvent)) = true ->
  businessId entry messagingEvent = ret (Shape.business_id entry messagingEvent).
Proof.
  intros H Hok. unfold Shape.business_id.
  destruct (Spec.entry_id_usable entry) eqn:Eu.
  - apply (businessId_entry_id _ _ H Eu).
  - rewrite (businessId_recipient _ _ H Eu). cbn [orb] in Hok.
    apply andb_true_iff in Hok as [He Hr].
    apply negb_true_iff in He, Hr. read_props. reflexivity.
Qed.

(** The run of the messaging callback on an event it can read. *)
Lemma instagram_messaging_run (entry messagingEvent : value) :
  nullish entry = false ->
  Spec.instagram_messaging_ok entry messagingEvent = true ->
  instagram_messaging entry messagingEvent
  = (Shape.messaging_calls entry messagingEvent, Normal tt).
Proof.
  intros H Hok. unfold Spec.instagram_messaging_ok in Hok.
  apply andb_true_iff in Hok as [He Hr].
  unfold instagram_messaging, Shape.messaging_calls.
  rewrite (businessId_value _ _ H) by (rewrite He; exact Hr).
  apply negb_true_iff in He. read_props.
  destruct (truthy (prop "message" messagingEvent)); [reflexivity |].
  read_props.
  destruct (truthy (prop "delivery" messagingEvent)) eqn:Ed; cbn [orb].
  - read_props. rewrite Ed. reflexivity.
  - read_props. destruct (truthy (prop "read" messagingEvent)); reflexivity.
Qed.

(** The run of the changes callback on a change it can read. *)
Lemma instagram_change_run (entry change : value) :
  nullish entry = false ->
  Spec.instagram_change_ok entry change = true ->
  instagram_change entry change = (Shape.change_calls entry change, Normal tt).
Proof.
  intros H Hok. unfold Spec.instagram_change_ok in Hok.
  apply andb_true_iff in Hok as [Hc Hok]. apply negb_true_iff in Hc.
  unfold instagram_change, Shape.change_calls. read_props.
  destruct (prop "field" change === "messages"); [| reflexivity].
  cbn [negb orb] in Hok. apply andb_true_iff in Hok as [Hv Hr].
  apply negb_true_iff in Hv. read_props.
  fold (Shape.adapted change).
  rewrite (businessId_value _ _ H).
  - rewrite bind_ret. reflexivity.
  - destruct (Spec.entry_id_usable entry); [reflexivity |].
    cbn [orb] in Hr |- *. exact Hr.
Qed.

(** A callback that throws has called no handler: the call is its last
    step. *)
Lemma instagram_messaging_silent_throw (entry messagingEvent : value) :
  nullish entry = false ->
  returns (instagram_messaging entry messagingEvent) = false ->
  trace (instagram_messaging entry messagingEvent) = [].
Proof.
  intros H Hr.
  destruct (trace (instagram_messaging entry messagingEvent)) as [| e l] eqn:E;
    [reflexivity | exfalso].
  assert (He : In e (trace (instagram_messaging entry messagingEvent)))
    by (rewrite E; left; reflexivity).
  clear E. unfold instagram_messaging in He, Hr.
  apply in_trace_bind in He as [He | (b & Hb & He)];
    [rewrite businessId_pure in He; contradiction |].
  rewrite returns_bind, Hb in Hr.
  apply in_trace_get_bind in He as [En _].
  rewrite (messaging_dispatch_returns b _ En) in Hr. discriminate.
Qed.

Lemma instagram_change_silent_throw (entry change : value) :
  returns (instagram_change entry change) = false ->
  trace (instagram_change entry change) = [].
Proof.
  intros Hr.
  destruct (trace (instagram_change entry change)) as [| e l] eqn:E;
    [reflexivity | exfalso].
  assert (He : In e (trace (instagram_change entry change)))
    by (rewrite E; left; reflexivity).
  clear E. unfold instagram_change in He, Hr.
  apply in_trace_get_bind in He as [Hc He].
  rewrite (get_prop _ "field" Hc), bind_ret in Hr.
  destruct (prop "field" change === "messages"); [| contradiction].
  rewrite (get_prop _ "value" Hc), !bind_ret in He, Hr.
  apply in_trace_get_bind in He as [Hv He].
  rewrite !(get_prop _ _ Hv), !bind_ret in He.
  rewrite !(get_prop _ _ Hv), !bind_ret in Hr.
  apply in_trace_bind in He as [He | (b & Hb & He)];
    [rewrite businessId_pure in He; contradiction |].
  rewrite returns_bind, Hb in Hr. discriminate.
Qed.

(** An iteration whose callback makes the calls [calls x] on an element it
    can process, and a part of them otherwise, makes the calls of the
    elements in order, up to the element on which it stops. *)
Lemma each_calls {A} (f : A -> M unit) (calls : A -> list effect) (l : list A) :
  (forall x, exists rest, calls x = trace (f x) ++ rest) ->
  (forall x, returns (f x) = true -> trace (f x) = calls x) ->
  (exists rest, flat_map calls l = trace (each f l) ++ rest)
  /\ (returns (each f l) = true -> trace (each f l) = flat_map calls l).
Proof.
  intros Hp Hr. induction l as [| x l [[rest IH1] IH2]].
  - split; [exists []; reflexivity | reflexivity].
  - cbn [each flat_map]. rewrite trace_bind, returns_bind.
    specialize (Hr x). unfold returns in Hr.
    destruct (outcome (f x)) as [[] | err].
    + rewrite (Hr eq_refl). split.
      * exists rest. rewrite IH1. apply app_assoc.
      * intros H. rewrite (IH2 H). reflexivity.
    + split; [| discriminate].
      destruct (Hp x) as [r Hx]. exists (r ++ flat_map calls l).
      rewrite Hx, app_nil_r. symmetry. apply app_assoc.
Qed.

Lemma forEach_calls (v : value) (f : value -> M unit)
  (calls : value -> list effect) :
  (forall x, exists rest, calls x = trace (f x) ++ rest) ->
  (forall x, returns (f x) = true -> trace (f x) = calls x) ->
  (exists rest,
      flat_map calls (Shape.elements v) = trace (forEach v f) ++ rest)
  /\ (returns (forEach v f) = true ->
      trace (forEach v f) = flat_map calls (Shape.elements v)).
Proof.
  intros Hp Hr.
  destruct v; try (split; [exists []; reflexivity | intros; reflexivity]).
  apply each_calls; assumption.
Qed.

Lemma falsy_has_no_elements (v : value) :
  truthy v = false -> Shape.elements v = [].
Proof. destruct v; try reflexivity. discriminate. Qed.

(** The calls of the dispatch of one kind-B entry. *)
Lemma instagram_entry_trace (entry : value) :
  (exists rest,
      Shape.entry_calls entry = trace (instagram_entry entry) ++ rest)
  /\ (returns (instagram_entry entry) = true ->
      trace (instagram_entry entry) = Shape.entry_calls entry).
Proof.
  destruct (nullish entry) eqn:H.
  { destruct entry; try discriminate;
      (split; [exists []; reflexivity | discriminate]). }
  unfold instagram_entry, Shape.entry_calls. read_props.
  destruct (truthy (prop "messaging" entry)).
  - apply forEach_calls.
    + intros x.
      destruct (returns (instagram_messaging entry x)) eqn:Er.
      * exists []. rewrite returns_instagram_messaging in Er by exact H.
        rewrite (instagram_messaging_run _ _ H Er). symmetry. apply app_nil_r.
      * exists (Shape.messaging_calls entry x).
        rewrite (instagram_messaging_silent_throw _ _ H Er). reflexivity.
    + intros x Er. rewrite returns_instagram_messaging in Er by exact H.
      rewrite (instagram_messaging_run _ _ H Er). reflexivity.
  - read_props.
    destruct (truthy (prop "changes" entry)) eqn:Ec.
    + apply forEach_calls.
      * intros x.
        destruct (returns (instagram_change entry x)) eqn:Er.
        -- exists []. rewrite returns_instagram_change in Er by exact H.
           rewrite (instagram_change_run _ _ H Er). symmetry. apply app_nil_r.
        -- exists (Shape.change_calls entry x).
           rewrite (instagram_change_silent_throw _ _ Er). reflexivity.
      * intros x Er. rewrite returns_instagram_change in Er by exact H.
        rewrite (instagram_change_run _ _ H Er). reflexivity.
    + rewrite (falsy_has_no_elements _ Ec).
      split; [exists []; reflexivity | reflexivity].
Qed.

Lemma post_webhook_outcome (body : value) :
  outcome (post_webhook body)
  = if returns (post_webhook body) then Normal acknowledged
    else outcome (post_webhook body).
Proof.
  unfold returns, post_webhook. rewrite !outcome_bind.
  destruct (outcome (get body "object")) as [object |]; [| reflexivity].
  rewrite outcome_bind.
  destruct (outcome (if object === _ then _ else _)); reflexivity.
Qed.

(** The calls of the route on a kind-B payload. *)
Lemma post_webhook_instagram_trace (body : value) :
  prop "object" body = VString "instagram" ->
  (exists rest,
      flat_map Shape.entry_calls (Shape.elements (prop "entry" body))
      = trace (post_webhook body) ++ rest)
  /\ (returns (post_webhook body) = true ->
      trace (post_webhook body)
      = flat_map Shape.entry_calls (Shape.elements (prop "entry" body))).
Proof.
  intros Ho.
  assert (Hb : nullish body = false) by (destruct body; try discriminate; reflexivity).
  assert (E : trace (post_webhook body)
              = trace (forEach (prop "entry" body) instagram_entry)
              /\ returns (post_webhook body)
                 = returns (forEach (prop "entry" body) instagram_entry)).
  { unfold post_webhook. read_props. rewrite Ho.
    cbn [strict_eq_string String.eqb Ascii.eqb Bool.eqb]. read_props.
    rewrite trace_bind, returns_bind. unfold returns.
    destruct (outcome (forEach (prop "entry" body) instagram_entry));
      rewrite app_nil_r; split; reflexivity. }
  destruct E as [-> ->].
  apply forEach_calls; intros x; apply instagram_entry_trace.
Qed.

(** C4.  While a kind-B payload is dispatched, the handler calls are those
    of the events of its entries, entry by entry and event by event, and
    each call passes the event together with the business id resolved from
    the entry that holds the event: on a payload of the shape the route
    reads, the calls are exactly [Shape.entry_calls] of the entries in
    order and the route acknowledges; on any payload the calls made are an
    initial part of them.  The business id of an event is the id of its
    entry when that id is present (truthy) and not the string "0", and
    otherwise the recipient id of the event. *)
Theorem business_id_resolution (body : value) :
  prop "object" body = VString "instagram" ->
  (Spec.well_shaped body = true ->
   post_webhook body
   = (flat_map Shape.entry_calls (Shape.elements (prop "entry" body)),
      Normal acknowledged))
  /\ (exists rest,
         flat_map Shape.entry_calls (Shape.elements (prop "entry" body))
         = trace (post_webhook body) ++ rest)
  /\ (forall entry messagingEvent : value,
         (truthy (prop "id" entry) = true /\ prop "id" entry <> VString "0" ->
          Shape.business_id entry messagingEvent = prop "id" entry)
         /\ (~ (truthy (prop "id" entry) = true
                /\ prop "id" entry <> VString "0") ->
             Shape.business_id entry messagingEvent
             = prop "id" (prop "recipient" messagingEvent))).
Proof.
  intros Ho.
  destruct (post_webhook_instagram_trace body Ho) as [Hprefix Hexact].
  split; [| split; [exact Hprefix |]].
  - intros Hw. rewrite <- returns_post_webhook in Hw.
    rewrite (M_eta (post_webhook body)), post_webhook_outcome, Hw.
    rewrite (Hexact Hw). reflexivity.
  - intros entry ev. unfold Shape.business_id. split.
    + intros Hu. apply entry_id_usable_iff in Hu. rewrite Hu. reflexivity.
    + intros Hu. rewrite <- entry_id_usable_iff in Hu.
      destruct (Spec.entry_id_usable entry); [contradiction Hu |]; reflexivity.
Qed.

(** The two cases of the specification: entry id "0" with recipient "12345",
    and entry id "98765". *)
Example business_id_sentinel_zero :
  trace (post_webhook (Samples.ig_body "0"))
  = [handleInstagramMessage (VString "12345") Samples.ig_message_event].
Proof. reflexivity. Qed.

Example business_id_entry_98765 :
  trace (post_webhook (Samples.ig_body "98765"))
  = [handleInstagramMessage (VString "98765") Samples.ig_message_event].
Proof. reflexivity. Qed.

(** Two entries with different ids: each call carries the id resolved from
    the entry of its own event. *)
Lemma business_id_resolution_witness :
  post_webhook Samples.ig_two_entries
  = ([handleInstagramMessage (VString "98765") Samples.ig_message_event;
      handleInstagramMessage (VString "12345") (Shape.adapted Samples.ig_change)],
     Normal acknowledged).
Proof.
  exact (proj1 (business_id_resolution Samples.ig_two_entries eq_refl) eq_refl).
Defined.

(** ** Entries with both arrays *)

Lemma each_ext {A} (f g : A -> M unit) (l : list A) :
  (forall x, f x = g x) -> each f l = each g l.
Proof.
  intros H. induction l as [| x l IH]; [reflexivity |].
  cbn [each]. rewrite H. apply bind_ext. intros _. exact IH.
Qed.

(** The messaging callback reads the entry only for its id. *)
Lemma instagram_messaging_reads_id (entry1 entry2 messagingEvent : value) :
  nullish entry1 = false -> nullish entry2 = false ->
  prop "id" entry1 = prop "id" entry2 ->
  instagram_messaging entry1 messagingEvent
  = instagram_messaging entry2 messagingEvent.
Proof.
  intros H1 H2 E. unfold instagram_messaging, businessId.
  rewrite (get_prop _ _ H1), (get_prop _ _ H2), E. reflexivity.
Qed.

(** C10.  On a kind-B entry that holds a [messaging] array and a [changes]
    array, only the messaging events are dispatched.  When the events can
    be read, the run makes exactly the handler calls of the messaging
    events, in order: for each event the message handler if it has a
    message, else the status handler if it has a delivery or a read, with
    the business id of the entry and the event itself; on any events the
    calls made are an initial part of these.  The run is the iteration of
    the messaging callback, it is the same whatever is put in place of
    [changes], and every handler call it makes passes one of the messaging
    events: no change reaches a handler. *)
Theorem messaging_shadows_changes
  (props : list (string * value)) (events changes : list value) :
  own "messaging" props = VArray events ->
  own "changes" props = VArray changes ->
  (forallb (Spec.instagram_messaging_ok (VObject props)) events = true ->
   instagram_entry (VObject props)
   = (flat_map (Shape.messaging_calls (VObject props)) events, Normal tt))
  /\ (exists rest,
         flat_map (Shape.messaging_calls (VObject props)) events
         = trace (instagram_entry (VObject props)) ++ rest)
  /\ instagram_entry (VObject props)
     = each (instagram_messaging (VObject props)) events
  /\ (forall other : value,
        instagram_entry (VObject (("changes", other) :: props))
        = instagram_entry (VObject props))
  /\ (forall e : effect,
        In e (trace (instagram_entry (VObject props))) ->
        exists b messagingEvent,
          In messagingEvent events
          /\ (e = handleInstagramMessage b messagingEvent
              \/ e = handleInstagramStatus b messagingEvent)).
Proof.
  intros Hm _.
  assert (E : forall ps, own "messaging" ps = VArray events ->
                         instagram_entry (VObject ps)
                         = each (instagram_messaging (VObject ps)) events).
  { intros ps Hps. unfold instagram_entry.
    rewrite get_prop by reflexivity. rewrite bind_ret.
    cbn [prop]. rewrite Hps. reflexivity. }
  assert (T : Shape.entry_calls (VObject props)
              = flat_map (Shape.messaging_calls (VObject props)) events).
  { unfold Shape.entry_calls. cbn [prop]. rewrite Hm. reflexivity. }
  destruct (instagram_entry_trace (VObject props)) as [Hprefix Hexact].
  rewrite T in Hprefix, Hexact.
  split; [| split; [exact Hprefix | split; [apply E, Hm | split]]].
  - intros Hok.
    assert (Hr : returns (instagram_entry (VObject props)) = true).
    { rewrite returns_instagram_entry. unfold Spec.instagram_entry_ok.
      cbn [nullish negb andb prop]. rewrite Hm. exact Hok. }
    rewrite (M_eta (instagram_entry (VObject props))), (Hexact Hr).
    unfold returns in Hr.
    destruct (outcome (instagram_entry (VObject props))) as [[] |];
      [reflexivity | discriminate].
  - intros other.
    rewrite (E props Hm), (E (("changes", other) :: props) Hm).
    apply each_ext. intros ev.
    apply instagram_messaging_reads_id; reflexivity.
  - intros e He. rewrite (E props Hm) in He.
    apply in_trace_each in He as (ev & Hev & He).
    apply instagram_messaging_calls in He as (b & _ & He). eauto.
Qed.

(** The sample entry holds one event and one change: the event reaches the
    message handler, the change reaches nothing. *)
Lemma messaging_shadows_changes_witness :
  instagram_entry (Samples.ig_entry "0")
  = ([handleInstagramMessage (VString "12345") Samples.ig_message_event],
     Normal tt).
Proof.
  exact (proj1 (messaging_shadows_changes
                  [("id", VString "0");
                   ("messaging", VArray [Samples.ig_message_event]);
                   ("changes", VArray [Samples.ig_change])]
                  [Samples.ig_message_event] [Samples.ig_change]
                  eq_refl eq_refl) eq_refl).
Defined.

(** The change of the sample entry would reach the handler if the entry had
    no [messaging] array. *)
Example changes_alone_are_dispatched :
  handler_calls
    (trace (instagram_entry
              (VObject [("id", VString "0");
                        ("changes", VArray [Samples.ig_change])])))
  = [handleInstagramMessage (VString "12345")
       (VObject
          [("sender", VObject [("id", VString "888")]);
           ("recipient", VObject [("id", VString "12345")]);
           ("timestamp", VString "1700000001");
           ("message", VObject [("mid", VString "m2"); ("text", VString "yo")])])].
Proof. reflexivity. Qed.

(** ** POST /webhook: the acknowledgement *)

(** C2, as the code has it.  The route answers 200 "EVENT_RECEIVED" exactly
    on the parsed bodies whose envelope has the shape the dispatcher reads
    (on the others the dispatch throws before the response is sent); in
    particular a body whose top-level [object] is neither of the two known
    kinds is acknowledged without any handler call and without an error. *)
Theorem post_webhook_acknowledges (body : value) :
  (outcome (post_webhook body) = Normal acknowledged
   <-> Spec.well_shaped body = true)
  /\ (nullish body = false ->
      prop "object" body <> VString "whatsapp_business_account" ->
      prop "object" body <> VString "instagram" ->
      post_webhook body = ([], Normal acknowledged)).
Proof.
  split.
  - rewrite <- returns_post_webhook. rewrite post_webhook_outcome.
    destruct (returns (post_webhook body)) eqn:E.
    + split; reflexivity.
    + split; [| discriminate].
      unfold returns in E. intros H. rewrite H in E. discriminate.
  - intros Hb Hw Hi. unfold post_webhook.
    rewrite (get_prop _ _ Hb), bind_ret.
    apply strict_ne_string_neq, negb_true_iff in Hw, Hi.
    rewrite Hw, Hi. reflexivity.
Qed.

Lemma post_webhook_acknowledges_witness :
  post_webhook Samples.page_body = ([], Normal acknowledged).
Proof.
  apply (post_webhook_acknowledges Samples.page_body);
    [reflexivity | discriminate | discriminate].
Defined.

Example whatsapp_message_and_status_dispatched :
  post_webhook Samples.whatsapp_body
  = ([handleStatus (VString "555") (VObject [("status", VString "read")]);
      handleMessage (VString "555") Samples.direct_text_message],
     Normal acknowledged).
Proof. reflexivity. Qed.

(** C2 as stated fails on a template status update, a payload WhatsApp
    sends: it parses, its kind is known, the value of its change has no
    [metadata], and the route throws instead of answering 200. *)
Lemma template_status_update_is_not_acknowledged :
  post_webhook Samples.template_status_update
  = ([], Throw (TypeError
                  "Cannot read properties of undefined (reading 'phone_number_id')"))
  /\ outcome (post_webhook Samples.template_status_update) <> Normal acknowledged.
Proof. split; [reflexivity | discriminate]. Qed.

(** The same on a kind-B payload without [entry]. *)
Example instagram_without_entry_throws :
  post_webhook (VObject [("object", VString "instagram")])
  = ([], Throw (TypeError "Cannot read properties of undefined (reading 'forEach')")).
Proof. reflexivity. Qed.

(** ** GET /webhook *)

Import Query.

(** C5, as the code has it.  When [hub.mode] and [hub.verify_token] are
    strings or absent, the handshake answers 200 with the challenge as body
    if [hub.mode] is "subscribe" and [hub.verify_token] is the configured
    token (an absent parameter being equal to a token that is not set), and
    in every other case it answers with [sendStatus(403)], a response in
    which the challenge does not occur. *)
Theorem handshake (cfg : config) (query : list (string * qvalue)) :
  plain (param "hub.mode" query) = true ->
  plain (param "hub.verify_token" query) = true ->
  let accepted :=
    param "hub.mode" query = QString "subscribe"
    /\ param "hub.verify_token" query = of_config (verifyToken cfg) in
  (accepted ->
   get_webhook cfg query = ([], Normal (send 200 (param "hub.challenge" query))))
  /\ (~ accepted -> get_webhook cfg query = ([], Normal (sendStatus 403))).
Proof.
  intros Hm Ht accepted. subst accepted. unfold get_webhook.
  destruct (param "hub.mode" query) as [| m | |]; try discriminate;
    destruct (param "hub.verify_token" query) as [| t | |]; try discriminate;
    destruct (verifyToken cfg) as [c |]; cbn;
    try destruct (String.eqb_spec m "subscribe") as [-> | Hne]; cbn;
    try destruct (String.eqb_spec t c) as [-> | Hne']; cbn;
    (split;
     [intros [E1 E2]; try discriminate; try congruence; reflexivity
     | intros H; try reflexivity; exfalso; apply H; split; reflexivity]).
Qed.

Lemma handshake_witness :
  get_webhook Samples.two_secrets
    [("hub.mode", QString "subscribe"); ("hub.verify_token", QString "token");
     ("hub.challenge", QString "1158201444")]
  = ([], Normal (send 200 (QString "1158201444"))).
Proof.
  apply (handshake Samples.two_secrets
           [("hub.mode", QString "subscribe");
            ("hub.verify_token", QString "token");
            ("hub.challenge", QString "1158201444")]);
    try reflexivity.
  split; reflexivity.
Defined.

Example handshake_wrong_token :
  get_webhook Samples.two_secrets
    [("hub.mode", QString "subscribe"); ("hub.verify_token", QString "guess");
     ("hub.challenge", QString "1158201444")]
  = ([], Normal (sendStatus 403)).
Proof. reflexivity. Qed.

(** C5 as stated fails on parameters that are not strings.  The parameter
    [hub.mode[toString]=x] makes [hub.mode] an object with a [toString] of
    its own, the comparison throws, and the answer is neither 200 nor 403.
    The parameter [hub.mode[]=subscribe] makes [hub.mode] an array, which
    is not the string "subscribe", and the handshake accepts it. *)
Lemma handshake_on_object_and_array :
  get_webhook Samples.two_secrets
    [("hub.mode", QObject [("toString", QString "x")]);
     ("hub.verify_token", QString "token");
     ("hub.challenge", QString "1158201444")]
  = ([], Throw (TypeError "Cannot convert object to primitive value"))
  /\ get_webhook Samples.two_secrets
       [("hub.mode", QArray [QString "subscribe"]);
        ("hub.verify_token", QString "token");
        ("hub.challenge", QString "1158201444")]
     = ([], Normal (send 200 (QString "1158201444")))
  /\ QArray [QString "subscribe"] <> QString "subscribe".
Proof. repeat split. discriminate. Qed.

(* ================================================================== *)
(** * Further properties of the code *)
(* ================================================================== *)

(** ** Kind A: statuses and messages of a change *)

Lemma each_perform {A} (g : A -> effect) (l : list A) :
  each (fun x => perform (g x)) l = (map g l, Normal tt).
Proof.
  induction l as [| x l IH]; [reflexivity |].
  cbn [each map]. rewrite IH. reflexivity.
Qed.

Lemma optional_forEach_perform (v : value) (g : value -> effect) :
  Spec.optional_array v = true ->
  (if truthy v then forEach v (fun x => perform (g x)) else ret tt)
  = (map g (Shape.elements v), Normal tt).
Proof.
  unfold Spec.optional_array. intros H.
  destruct v; cbn in *; try discriminate; try reflexivity.
  - destruct b; [discriminate | reflexivity].
  - destruct n; cbn in *; try discriminate; reflexivity.
  - destruct (String.eqb s ""); cbn in *; [reflexivity | discriminate].
  - apply each_perform.
Qed.

(** X1.  On a change whose value has the shape the dispatcher reads, every
    status is handed to the status handler, then every message to the
    message handler, each in array order and each with the
    [phone_number_id] of the value's metadata; a change without a value
    calls nothing. *)
Theorem whatsapp_change_statuses_then_messages (change : value) :
  Spec.whatsapp_change_ok change = true ->
  whatsapp_change change
  = (if truthy (prop "value" change)
     then map (Js.handleStatus (Shape.phone_number_id change))
              (Shape.elements (prop "statuses" (prop "value" change)))
          ++ map (Js.handleMessage (Shape.phone_number_id change))
                 (Shape.elements (prop "messages" (prop "value" change)))
     else [],
     Normal tt).
Proof.
  unfold Spec.whatsapp_change_ok, whatsapp_change, Shape.phone_number_id.
  intros H. apply andb_true_iff in H as [Hc H]. apply negb_true_iff in Hc.
  rewrite (get_prop _ _ Hc), bind_ret. cbv zeta in H.
  destruct (truthy (prop "value" change)) eqn:Ev; [| reflexivity].
  cbn [negb orb] in H.
  apply andb_true_iff in H as [H Hmsgs]. apply andb_true_iff in H as [Hmeta Hsts].
  apply negb_true_iff in Hmeta. read_props.
  unfold Conversation.handleStatus, Conversation.handleMessage.
  rewrite (optional_forEach_perform _ _ Hsts).
  rewrite (optional_forEach_perform _ _ Hmsgs).
  reflexivity.
Qed.

Lemma whatsapp_change_statuses_then_messages_witness :
  whatsapp_change
    (VObject
       [("field", VString "messages");
        ("value",
         VObject
           [("metadata", VObject [("phone_number_id", VString "555")]);
            ("statuses", VArray [VObject [("status", VString "read")]]);
            ("messages", VArray [Samples.direct_text_message])])])
  = ([Js.handleStatus (VString "555") (VObject [("status", VString "read")]);
      Js.handleMessage (VString "555") Samples.direct_text_message],
     Normal tt).
Proof.
  apply (whatsapp_change_statuses_then_messages
           (VObject
              [("field", VString "messages");
               ("value",
                VObject
                  [("metadata", VObject [("phone_number_id", VString "555")]);
                   ("statuses", VArray [VObject [("status", VString "read")]]);
                   ("messages", VArray [Samples.direct_text_message])])])).
  reflexivity.
Defined.

Lemma in_trace_optional_forEach (v : value) (g : value -> effect) (e : effect) :
  In e (trace (if truthy v then forEach v (fun x => perform (g x)) else ret tt)) ->
  exists x, In x (Shape.elements v) /\ e = g x.
Proof.
  destruct (truthy v); [| intros []].
  intros H. apply in_trace_forEach in H as (l & x & -> & Hx & [<- | []]).
  exists x. split; [exact Hx | reflexivity].
Qed.

Lemma whatsapp_change_calls (change : value) (e : effect) :
  In e (trace (whatsapp_change change)) ->
  (exists status,
     In status (Shape.elements (prop "statuses" (prop "value" change)))
     /\ e = Js.handleStatus (Shape.phone_number_id change) status)
  \/ (exists rawMessage,
        In rawMessage (Shape.elements (prop "messages" (prop "value" change)))
        /\ e = Js.handleMessage (Shape.phone_number_id change) rawMessage).
Proof.
  unfold whatsapp_change, Shape.phone_number_id. intros H.
  apply in_trace_get_bind in H as [_ H].
  destruct (truthy (prop "value" change)); [| destruct H].
  apply in_trace_get_bind in H as [_ H].
  apply in_trace_get_bind in H as [_ H].
  apply in_trace_get_bind in H as [_ H].
  apply in_trace_bind in H as [H | (_ & _ & H)].
  - left. apply (in_trace_optional_forEach _ _ _ H).
  - apply in_trace_get_bind in H as [_ H].
    right. apply (in_trace_optional_forEach _ _ _ H).
Qed.

(** X2.  While a kind-A payload is dispatched, whether or not the dispatch
    ends normally, every call made is a call of the status handler or of the
    message handler, for a status or message of the value of a change of an
    entry of the payload, and the id it passes is that value's
    [metadata.phone_number_id]; no Instagram handler is called. *)
Theorem whatsapp_dispatch_calls (body : value) (e : effect) :
  prop "object" body = VString "whatsapp_business_account" ->
  In e (trace (post_webhook body)) ->
  exists entry change,
    In entry (Shape.elements (prop "entry" body))
    /\ In change (Shape.elements (prop "changes" entry))
    /\ ((exists status,
           In status (Shape.elements (prop "statuses" (prop "value" change)))
           /\ e = Js.handleStatus (Shape.phone_number_id change) status)
        \/ (exists rawMessage,
              In rawMessage (Shape.elements (prop "messages" (prop "value" change)))
              /\ e = Js.handleMessage (Shape.phone_number_id change) rawMessage)).
Proof.
  intros Ho H. unfold post_webhook in H.
  apply in_trace_get_bind in H as [_ H]. rewrite Ho in H.
  cbn [strict_eq_string String.eqb Ascii.eqb Bool.eqb] in H.
  apply in_trace_bind in H as [H | (_ & _ & [])].
  apply in_trace_get_bind in H as [_ H].
  apply in_trace_forEach in H as (entries & entry & Hentries & Hentry & H).
  unfold whatsapp_entry in H.
  apply in_trace_get_bind in H as [_ H].
  apply in_trace_forEach in H as (changes & change & Hchanges & Hchange & H).
  exists entry, change. rewrite Hentries, Hchanges.
  split; [exact Hentry |]. split; [exact Hchange |].
  apply whatsapp_change_calls, H.
Qed.

Lemma whatsapp_dispatch_calls_witness :
  exists entry change,
    In entry (Shape.elements (prop "entry" Samples.whatsapp_body))
    /\ In change (Shape.elements (prop "changes" entry))
    /\ ((exists status,
           In status (Shape.elements (prop "statuses" (prop "value" change)))
           /\ Js.handleMessage (VString "555") Samples.direct_text_message
              = Js.handleStatus (Shape.phone_number_id change) status)
        \/ (exists rawMessage,
              In rawMessage (Shape.elements (prop "messages" (prop "value" change)))
              /\ Js.handleMessage (VString "555") Samples.direct_text_message
                 = Js.handleMessage (Shape.phone_number_id change) rawMessage)).
Proof.
  apply (whatsapp_dispatch_calls Samples.whatsapp_body).
  - reflexivity.
  - right. left. reflexivity.
Defined.

(** ** A throwing element ends the iteration *)

Lemma bind_assoc {A B C} (m : M A) (f : A -> M B) (g : B -> M C) :
  bind (bind m f) g = bind m (fun a => bind (f a) g).
Proof.
  destruct m as [l [a | e]]; [| reflexivity]. cbn.
  destruct (f a) as [l' [b | e']]; cbn; [| reflexivity].
  destruct (g b) as [l'' c]. rewrite app_assoc. reflexivity.
Qed.

Lemma each_app {A} (f : A -> M unit) (l1 l2 : list A) :
  each f (l1 ++ l2) = bind (each f l1) (fun _ => each f l2).
Proof.
  induction l1 as [| x l1 IH]; cbn [each app].
  - rewrite bind_ret. reflexivity.
  - rewrite bind_assoc. apply bind_ext. intros _. exact IH.
Qed.

Lemma each_stops {A} (f : A -> M unit) (l1 l2 : list A) (x : A) :
  returns (f x) = false ->
  exists err, each f (l1 ++ x :: l2) = (trace (each f (l1 ++ [x])), Throw err).
Proof.
  intros Hx. rewrite !each_app. cbn [each].
  destruct (f x) as [lx [[] | ex]] eqn:Ex; [discriminate |].
  destruct (each f l1) as [l [[] | err]]; cbn.
  - exists ex. reflexivity.
  - exists err. reflexivity.
Qed.

(** X3.  An entry on which the dispatch throws ends the request there: the
    entries that follow it in the payload are never visited, the handler
    calls made for the entries before it stand, and no acknowledgement is
    sent.  The run is the one on the entries up to and including the
    throwing one. *)
Theorem dispatch_stops_at_throwing_entry
  (body : value) (before after : list value) (bad : value) :
  nullish body = false ->
  prop "entry" body = VArray (before ++ bad :: after) ->
  (prop "object" body = VString "whatsapp_business_account"
   /\ Spec.whatsapp_entry_ok bad = false)
  \/ (prop "object" body = VString "instagram"
      /\ Spec.instagram_entry_ok bad = false) ->
  exists err,
    post_webhook body
    = (trace (each (if prop "object" body === "instagram"
                    then instagram_entry else whatsapp_entry)
                   (before ++ [bad])),
       Throw err).
Proof.
  intros Hb He Hbad. unfold post_webhook.
  rewrite (get_prop _ _ Hb), bind_ret.
  destruct Hbad as [[Ho Hbad] | [Ho Hbad]]; rewrite Ho;
    cbn [strict_eq_string String.eqb Ascii.eqb Bool.eqb];
    rewrite (get_prop _ _ Hb), bind_ret, He; cbn [forEach].
  - rewrite <- returns_whatsapp_entry in Hbad.
    destruct (each_stops whatsapp_entry before after bad Hbad) as [err ->].
    exists err. reflexivity.
  - rewrite <- returns_instagram_entry in Hbad.
    destruct (each_stops instagram_entry before after bad Hbad) as [err ->].
    exists err. reflexivity.
Qed.

Lemma dispatch_stops_at_throwing_entry_witness :
  exists err,
    post_webhook
      (VObject [("object", VString "instagram");
                ("entry", VArray [Samples.ig_entry "0"; VNull;
                                  Samples.ig_entry "98765"])])
    = ([Js.handleInstagramMessage (VString "12345") Samples.ig_message_event],
       Throw err).
Proof.
  apply (dispatch_stops_at_throwing_entry
           (VObject [("object", VString "instagram");
                     ("entry", VArray [Samples.ig_entry "0"; VNull;
                                       Samples.ig_entry "98765"])])
           [Samples.ig_entry "0"] [Samples.ig_entry "98765"] VNull).
  - reflexivity.
  - reflexivity.
  - right. split; reflexivity.
Defined.

(** ** Kind B: what one event and one change call *)

(** X4.  A readable messaging event calls at most one handler: the message
    handler when it has a message, even if it also reports a delivery or a
    read; otherwise the status handler when it reports a delivery or a
    read; otherwise nothing.  The call passes the business id and the event
    itself. *)
Theorem instagram_messaging_one_call (entry messagingEvent : value) :
  nullish entry = false ->
  Spec.instagram_messaging_ok entry messagingEvent = true ->
  instagram_messaging entry messagingEvent
  = (if truthy (prop "message" messagingEvent) then
       [Js.handleInstagramMessage
          (Shape.business_id entry messagingEvent) messagingEvent]
     else if truthy (prop "delivery" messagingEvent)
             || truthy (prop "read" messagingEvent) then
       [Js.handleInstagramStatus
          (Shape.business_id entry messagingEvent) messagingEvent]
     else [],
     Normal tt).
Proof.
  intros H Hok. unfold Spec.instagram_messaging_ok in Hok.
  apply andb_true_iff in Hok as [He Hr]. unfold instagram_messaging.
  rewrite (businessId_value _ _ H) by (rewrite He; exact Hr).
  apply negb_true_iff in He. read_props.
  destruct (truthy (prop "message" messagingEvent)); [reflexivity |].
  read_props.
  destruct (truthy (prop "delivery" messagingEvent)) eqn:Ed; cbn [orb].
  - read_props. rewrite Ed. reflexivity.
  - read_props. destruct (truthy (prop "read" messagingEvent)); reflexivity.
Qed.

Lemma instagram_messaging_one_call_witness :
  instagram_messaging (Samples.ig_entry "98765")
    (VObject [("message", VObject [("text", VString "hi")]);
              ("delivery", VObject [("mids", VArray [])])])
  = ([Js.handleInstagramMessage (VString "98765")
        (VObject [("message", VObject [("text", VString "hi")]);
                  ("delivery", VObject [("mids", VArray [])])])],
     Normal tt).
Proof.
  apply (instagram_messaging_one_call (Samples.ig_entry "98765")
           (VObject [("message", VObject [("text", VString "hi")]);
                     ("delivery", VObject [("mids", VArray [])])]));
    reflexivity.
Defined.

(** X5.  A change of the field "messages" reaches the message handler as a
    new object that holds the four fields [sender], [recipient],
    [timestamp] and [message] of the change's value and nothing else, with
    the business id resolved on that object; a change of any other field
    calls no handler and does not throw, whatever its value is.  The changes
    branch never calls the status handler. *)
Theorem instagram_change_adapts (entry change : value) :
  nullish entry = false ->
  Spec.instagram_change_ok entry change = true ->
  instagram_change entry change
  = (if prop "field" change === "messages" then
       [Js.handleInstagramMessage
          (Shape.business_id entry (Shape.adapted change))
          (Shape.adapted change)]
     else [],
     Normal tt).
Proof.
  intros H Hok. unfold Spec.instagram_change_ok in Hok.
  apply andb_true_iff in Hok as [Hc Hok]. apply negb_true_iff in Hc.
  unfold instagram_change. read_props.
  destruct (prop "field" change === "messages"); [| reflexivity].
  cbn [negb orb] in Hok. apply andb_true_iff in Hok as [Hv Hr].
  apply negb_true_iff in Hv. read_props.
  fold (Shape.adapted change).
  rewrite (businessId_value _ _ H).
  - rewrite bind_ret. reflexivity.
  - destruct (Spec.entry_id_usable entry); [reflexivity |].
    cbn [orb] in Hr |- *. exact Hr.
Qed.

Lemma instagram_change_adapts_witness :
  instagram_change (Samples.ig_entry "0") Samples.ig_change
  = ([Js.handleInstagramMessage (VString "12345")
        (VObject
           [("sender", VObject [("id", VString "888")]);
            ("recipient", VObject [("id", VString "12345")]);
            ("timestamp", VString "1700000001");
            ("message", VObject [("mid", VString "m2"); ("text", VString "yo")])])],
     Normal tt).
Proof.
  apply (instagram_change_adapts (Samples.ig_entry "0") Samples.ig_change);
    reflexivity.
Defined.

(** ** The verifier: what an accepted digest looks like *)

Lemma hex_length (bs : list Z) :
  String.length (Crypto.hex bs) = (2 * List.length bs)%nat.
Proof.
  induction bs as [| b bs IH]; [reflexivity |].
  cbn [Crypto.hex String.length List.length]. rewrite IH. lia.
Qed.

Lemma sha256_length (msg : list Z) : List.length (Crypto.sha256 msg) = 32%nat.
Proof.
  unfold Crypto.sha256. cbv zeta. set (s := fold_left _ _ _). clearbody s.
  reflexivity.
Qed.

Lemma hex_digit_lower (n : Z) :
  0 <= n < 16 -> Shape.is_lower_hex (Crypto.hex_digit n) = true.
Proof.
  intros H. unfold Shape.is_lower_hex, Crypto.hex_digit. cbv zeta.
  destruct (Z.ltb_spec n 10); rewrite N_ascii_embedding by lia;
    apply orb_true_iff; [left | right];
    apply andb_true_iff; split; apply N.leb_le; lia.
Qed.

Lemma hex_lower (bs : list Z) :
  Forall (fun b => 0 <= b < 256) bs -> Shape.lower_hex (Crypto.hex bs) = true.
Proof.
  unfold Shape.lower_hex. induction 1 as [| b bs Hb _ IH]; [reflexivity |].
  cbn [Crypto.hex list_ascii_of_string forallb].
  rewrite IH, !hex_digit_lower; [reflexivity | |].
  - change 0xf with (Z.ones 4). rewrite Z.land_ones by lia.
    apply Z.mod_pos_bound. reflexivity.
  - rewrite Z.shiftr_div_pow2 by lia. change (2 ^ 4) with 16.
    split; [apply Z.div_pos; lia | apply Z.div_lt_upper_bound; lia].
Qed.

Transparent Crypto.hmac_sha256_hex.

(** The digest the verifier compares with is 64 lower-case hex digits. *)
Lemma hmac_hex_format (key buf : string) :
  String.length (Crypto.hmac_sha256_hex key buf) = 64%nat
  /\ Shape.lower_hex (Crypto.hmac_sha256_hex key buf) = true.
Proof.
  unfold Crypto.hmac_sha256_hex, Crypto.hmac_sha256. split.
  - rewrite hex_length, sha256_length. reflexivity.
  - apply hex_lower, sha256_range.
Qed.

Opaque Crypto.hmac_sha256_hex.

(** X6.  Whatever the configuration, a request that carries the signature
    header is accepted only if the piece of the header after the first
    equals sign is, character for character, the HMAC-SHA256 hex digest of
    the body under a configured secret: 64 lower-case hex digits.  A header
    without an equals sign, a digest in upper case and a truncated digest
    are refused. *)
Theorem accepted_digest_is_a_configured_hmac
  (cfg : config) (req : request) (buf signature : string) :
  header "x-hub-signature-256" (headers req) = Some signature ->
  signature <> "" ->
  returns (verifyRequestSignature cfg req buf) = true ->
  exists key digest,
    (appSecret cfg = Some key \/ igAppSecret cfg = Some key)
    /\ digest = Crypto.hmac_sha256_hex key buf
    /\ signatureHash signature = Some digest
    /\ String.length digest = 64%nat
    /\ Shape.lower_hex digest = true.
Proof.
  intros Hh Hne Hret.
  destruct (appSecret cfg) as [s1 |] eqn:H1.
  2:{ unfold verifyRequestSignature in Hret. rewrite Hh in Hret.
      apply present_Some in Hne. rewrite Hne, H1 in Hret. discriminate. }
  rewrite (verify_with_header cfg req buf s1 signature H1 Hh Hne) in Hret.
  destruct (signature_mismatch_throws cfg (signatureHash signature))
    as (Hthrows & _ & _).
  destruct (option_string_eqb (signatureHash signature)
              (Some (Crypto.hmac_sha256_hex s1 buf))) eqn:E1.
  - apply option_string_eqb_eq in E1. exists s1, (Crypto.hmac_sha256_hex s1 buf).
    destruct (hmac_hex_format s1 buf). auto.
  - destruct (present (igAppSecret cfg) && _).
    + rewrite returns_bind in Hret. cbn [perform outcome snd] in Hret.
      destruct (igAppSecret cfg) as [s2 |] eqn:H2; [| discriminate].
      rewrite returns_bind in Hret.
      cbn -[signatureHash signature_mismatch] in Hret.
      destruct (option_string_eqb (signatureHash signature)
                  (Some (Crypto.hmac_sha256_hex s2 buf))) eqn:E2;
        [| congruence].
      apply option_string_eqb_eq in E2.
      exists s2, (Crypto.hmac_sha256_hex s2 buf).
      destruct (hmac_hex_format s2 buf). auto.
    + rewrite returns_bind in Hret. cbn [perform outcome snd] in Hret.
      congruence.
Qed.

Lemma accepted_digest_is_a_configured_hmac_witness :
  exists key digest,
    (appSecret Samples.two_secrets = Some key
     \/ igAppSecret Samples.two_secrets = Some key)
    /\ digest = Crypto.hmac_sha256_hex key "{}"
    /\ signatureHash
         "sha256=3d131e1c597a4c93db1df1031dfdb3789e334d8f1f5e0254477170ee24cb2fa4"
       = Some digest
    /\ String.length digest = 64%nat
    /\ Shape.lower_hex digest = true.
Proof.
  apply (accepted_digest_is_a_configured_hmac
           Samples.two_secrets Samples.signed_by_secondary "{}"
           "sha256=3d131e1c597a4c93db1df1031dfdb3789e334d8f1f5e0254477170ee24cb2fa4").
  - reflexivity.
  - discriminate.
  - vm_compute. reflexivity.
Defined.

(** The same digest in upper case is refused. *)
Example upper_case_digest_refused :
  returns
    (verifyRequestSignature Samples.two_secrets
       (mkRequest
          [("x-hub-signature-256",
            "sha256=3D131E1C597A4C93DB1DF1031DFDB3789E334D8F1F5E0254477170EE24CB2FA4")]
          "{}") "{}")
  = false.
Proof. vm_compute. reflexivity. Qed.

(** X7.  With a primary secret and no secondary secret set, a request whose
    digest does not match is refused, but not with the signature error: the
    log line for the secondary secret reads [substring] from [undefined]
    (line 194) and the verifier ends with that [TypeError], after the three
    log lines before it, the third of which shows the first four UTF-16
    code units of the primary secret. *)
Theorem mismatch_without_secondary_is_a_type_error
  (cfg : config) (req : request) (buf s1 signature : string) :
  appSecret cfg = Some s1 ->
  igAppSecret cfg = None ->
  header "x-hub-signature-256" (headers req) = Some signature ->
  signature <> "" ->
  signatureHash signature <> Some (Crypto.hmac_sha256_hex s1 buf) ->
  verifyRequestSignature cfg req buf
  = ([createHmac s1 buf;
      console_error [VString "Signature mismatch!"];
      console_error [VString "Received signature hash:";
                     of_option (signatureHash signature)];
      console_error [VString "Main appSecret used for verification:";
                     VString (JsString.first_units 4 s1 ++ "...")]],
     Throw (TypeError "Cannot read properties of undefined (reading 'substring')")).
Proof.
  intros H1 H2 Hh Hne Hdigest.
  rewrite (verify_with_header cfg req buf s1 signature H1 Hh Hne).
  apply option_string_eqb_neq in Hdigest. rewrite Hdigest, H2.
  unfold signature_mismatch, first_four. rewrite H1, H2. reflexivity.
Qed.

Lemma mismatch_without_secondary_is_a_type_error_witness :
  outcome (verifyRequestSignature Samples.one_secret
             (mkRequest [("x-hub-signature-256", "sha256=00")] "{}") "{}")
  = Throw (TypeError "Cannot read properties of undefined (reading 'substring')").
Proof.
  assert (H : signatureHash "sha256=00"
              <> Some (Crypto.hmac_sha256_hex "s1" "{}"))
    by (vm_compute; discriminate).
  rewrite (mismatch_without_secondary_is_a_type_error
             Samples.one_secret
             (mkRequest [("x-hub-signature-256", "sha256=00")] "{}")
             "{}" "s1" "sha256=00" eq_refl eq_refl eq_refl
             ltac:(discriminate) H).
  reflexivity.
Defined.

(** ** The verifier: what it logs *)

Lemma string_length_append (a b : string) :
  String.length (a ++ b) = (String.length a + String.length b)%nat.
Proof. induction a as [| c a IH]; cbn; [| rewrite IH]; reflexivity. Qed.

(** On a string of ASCII characters a code unit is a byte. *)
Lemma first_units_ascii (n : nat) (s : string) :
  JsString.ascii_only s = true ->
  JsString.first_units n s = substring 0 n s.
Proof.
  revert s. induction n as [| n IH]; intros s H.
  - destruct s; reflexivity.
  - destruct s as [| c s]; [reflexivity |].
    unfold JsString.ascii_only in H. cbn [list_ascii_of_string forallb] in H.
    apply andb_true_iff in H as [Hc Hs].
    cbn [JsString.first_units substring].
    unfold JsString.sequence_length.
    assert (E : (JsString.byte c <? 192)%Z = true)
      by (apply Z.ltb_lt; apply Z.ltb_lt in Hc; lia).
    rewrite E. cbn [Nat.sub JsString.take JsString.drop].
    destruct s; cbn [String.append]; rewrite (IH _ Hs); reflexivity.
Qed.

Lemma substring_length_le (n m : nat) (s : string) :
  (String.length (substring n m s) <= m)%nat.
Proof.
  revert n m. induction s as [| c s IH]; intros n m.
  - destruct n, m; cbn; lia.
  - destruct n as [| n]; destruct m as [| m]; cbn; try lia.
    + specialize (IH 0%nat m). lia.
    + apply IH.
    + apply IH.
Qed.

Lemma first_four_short (secret : string) :
  JsString.ascii_only secret = true ->
  (String.length (JsString.first_units 4 secret ++ "...") <= 7)%nat.
Proof.
  intros H. rewrite (first_units_ascii 4 secret H), string_length_append.
  pose proof (substring_length_le 0 4 secret). cbn [String.length]. lia.
Qed.

Ltac split_membership :=
  repeat match goal with
         | H : In _ (_ :: _) |- _ => destruct H as [H | H]
         | H : In _ [] |- _ => destruct H
         | H : _ \/ _ |- _ => destruct H as [H | H]
         | H : False |- _ => destruct H
         | H : console_error _ = console_error _ |- _ => injection H as <-
         | H : console_error _ = createHmac _ _ |- _ => discriminate H
         | H : createHmac _ _ = console_error _ |- _ => discriminate H
         | H : VString _ = VString _ |- _ => injection H as <-
         | H : of_option ?o = VString _ |- _ =>
             destruct o; [injection H as <- | discriminate H]
         end.

Lemma signature_mismatch_logs
  (cfg : config) (h : option string) (args : list value) (s : string) :
  In (console_error args) (trace (signature_mismatch cfg h)) ->
  In (VString s) args ->
  In s Shape.mismatch_labels
  \/ h = Some s
  \/ exists secret,
       (appSecret cfg = Some secret \/ igAppSecret cfg = Some secret)
       /\ s = (JsString.first_units 4 secret ++ "...")%string.
Proof.
  unfold signature_mismatch, first_four.
  destruct (appSecret cfg) as [s1 |], (igAppSecret cfg) as [s2 |];
    cbn [option_string_eqb negb];
    try destruct (String.eqb s2 s1);
    cbn -[JsString.first_units]; intros Hin Hs;
    split_membership; cbn -[JsString.first_units]; eauto 10.
Qed.

(** X8.  What the verifier writes with [console.error]: every string it
    passes is one of the four fixed labels, the piece of the signature
    header that was compared (text the sender chose), or the first four
    UTF-16 code units of a configured secret followed by three dots, which
    for a secret of ASCII characters is at most seven characters. *)
Theorem verifier_logs_four_characters_of_a_secret
  (cfg : config) (req : request) (buf : string) (args : list value) (s : string) :
  In (console_error args) (trace (verifyRequestSignature cfg req buf)) ->
  In (VString s) args ->
  In s Shape.mismatch_labels
  \/ (exists signature,
        header "x-hub-signature-256" (headers req) = Some signature
        /\ signatureHash signature = Some s)
  \/ (exists secret,
        (appSecret cfg = Some secret \/ igAppSecret cfg = Some secret)
        /\ s = (JsString.first_units 4 secret ++ "...")%string
        /\ (JsString.ascii_only secret = true -> (String.length s <= 7)%nat)).
Proof.
  unfold verifyRequestSignature.
  destruct (header "x-hub-signature-256" (headers req)) as [signature |];
    [| intros H; cbn in H; split_membership; discriminate].
  destruct (negb (present (Some signature)));
    [intros H; cbn in H; split_membership; discriminate |].
  intros Hin Hs.
  assert (Hm : In (console_error args)
                  (trace (signature_mismatch cfg (signatureHash signature)))).
  { apply in_trace_bind in Hin as [Hin | (h1 & _ & Hin)].
    - unfold hmac_hex in Hin. destruct (appSecret cfg); cbn in Hin;
        split_membership.
    - destruct (option_string_eqb _ (Some h1)); [destruct Hin |].
      destruct (present (igAppSecret cfg) && _); [| exact Hin].
      apply in_trace_bind in Hin as [Hin | (h2 & _ & Hin)].
      + unfold hmac_hex in Hin. destruct (igAppSecret cfg); cbn in Hin;
          split_membership.
      + destruct (option_string_eqb _ (Some h2)); [destruct Hin | exact Hin]. }
  destruct (signature_mismatch_logs cfg _ args s Hm Hs)
    as [H | [H | (secret & Hsecret & ->)]].
  - left. exact H.
  - right. left. eauto.
  - right. right. exists secret. repeat split; try assumption.
    apply first_four_short.
Qed.

Lemma verifier_logs_four_characters_of_a_secret_witness :
  In "app-..." Shape.mismatch_labels
  \/ (exists signature,
        header "x-hub-signature-256" [("x-hub-signature-256", "sha256=00")]
        = Some signature
        /\ signatureHash signature = Some "app-...")
  \/ (exists secret,
        (Some "app-secret" = Some secret \/ Some "ig-secret" = Some secret)
        /\ "app-..." = (JsString.first_units 4 secret ++ "...")%string
        /\ (JsString.ascii_only secret = true
            -> (String.length "app-..." <= 7)%nat)).
Proof.
  apply (verifier_logs_four_characters_of_a_secret
           (mkConfig (Some "app-secret") (Some "ig-secret") None)
           (mkRequest [("x-hub-signature-256", "sha256=00")] "{}") "{}"
           [VString "Main appSecret used for verification:"; VString "app-..."]).
  - vm_compute. right. right. right. right. left. reflexivity.
  - right. left. reflexivity.
Defined.

(** A secret of four characters or fewer is logged whole, and so is a
    longer one that continues with three dots. *)
Example short_secret_is_logged_whole :
  In (console_error [VString "Main appSecret used for verification:";
                     VString "s1..."])
     (trace (verifyRequestSignature Samples.two_secrets
               (mkRequest [("x-hub-signature-256", "sha256=00")] "{}") "{}")).
Proof. vm_compute. right. right. right. right. left. reflexivity. Qed.

(** [substring(0, 4)] counts UTF-16 code units.  Of a secret that starts
    with a character of two bytes (U+00F1) the first four units are five
    bytes; of one that starts with a character outside the basic plane
    (U+1F600, four bytes, two units) they are that character and two more;
    and one unit of it is its high surrogate, U+D83D. *)
Example first_units_two_byte_character :
  JsString.first_units 4
    (String (JsString.char 0xC3) (String (JsString.char 0xB1) "andu-secret"))
  = String (JsString.char 0xC3) (String (JsString.char 0xB1) "and").
Proof. reflexivity. Qed.

Example first_units_surrogate_pair :
  let face :=
    String (JsString.char 0xF0)
      (String (JsString.char 0x9F)
         (String (JsString.char 0x98) (String (JsString.char 0x80) ""))) in
  JsString.first_units 4 (face ++ "secret") = (face ++ "se")%string
  /\ JsString.first_units 1 (face ++ "secret")
     = String (JsString.char 0xED)
         (String (JsString.char 0xA0) (String (JsString.char 0xBD) "")).
Proof. split; reflexivity. Qed.

(** ** new Message(rawMessage): when it throws, what it builds *)

Lemma returns_type_and_text (rawMessage : value) :
  nullish rawMessage = false ->
  returns (Message.type_and_text rawMessage)
  = negb (prop "type" rawMessage === "interactive")
    || negb (nullish (prop "interactive" rawMessage))
       && negb (nullish (prop "button_reply" (prop "interactive" rawMessage))).
Proof.
  intros H.
  destruct (prop "type" rawMessage === "interactive") eqn:Et.
  - unfold Message.type_and_text. read_props. rewrite Et. read_props.
    rewrite !returns_get_bind. cbn [negb orb].
    destruct (nullish (prop "interactive" rawMessage)); [reflexivity |].
    destruct (nullish (prop "button_reply" (prop "interactive" rawMessage)));
      reflexivity.
  - rewrite type_and_text_other; [reflexivity | assumption |].
    intros E. apply strict_eq_string_eq in E. congruence.
Qed.

(** X9.  The constructor has no effect of its own, and it throws in exactly
    two cases: the raw message is [undefined] or [null], or its [type] is
    "interactive" and [interactive] or [interactive.button_reply] is
    [undefined] or [null].  Every other raw message, of whatever shape, is
    normalized. *)
Theorem constructor_throws_exactly (rawMessage : value) :
  trace (Message.constructor rawMessage) = []
  /\ returns (Message.constructor rawMessage)
     = negb (nullish rawMessage)
       && (negb (prop "type" rawMessage === "interactive")
           || negb (nullish (prop "interactive" rawMessage))
              && negb (nullish
                         (prop "button_reply" (prop "interactive" rawMessage)))).
Proof.
  destruct (nullish rawMessage) eqn:H.
  { destruct rawMessage; try discriminate; split; reflexivity. }
  rewrite (constructor_unfold _ H). cbn [negb andb].
  rewrite <- (returns_type_and_text _ H).
  rewrite trace_bind, returns_bind.
  assert (Hpure : trace (Message.type_and_text rawMessage) = []).
  { destruct (prop "type" rawMessage === "interactive") eqn:Et.
    - unfold Message.type_and_text. read_props. rewrite Et.
      rewrite !trace_bind, !get_pure.
      repeat (destruct (outcome (get _ _)); cbn [app];
              rewrite ?trace_bind, ?get_pure; try reflexivity).
    - rewrite type_and_text_other; [reflexivity | assumption |].
      intros E. apply strict_eq_string_eq in E. congruence. }
  rewrite Hpure. unfold returns.
  destruct (outcome (Message.type_and_text rawMessage)); split; reflexivity.
Qed.

(** X10.  A message normalized from an event whose [type] is not
    "interactive" keeps the id of the event and is either of type "text"
    with a truthy text (never empty, never missing) or of type "unknown"
    with no text. *)
Theorem normalized_text_is_not_empty (rawMessage : value) (m : Message.t) :
  outcome (Message.constructor rawMessage) = Normal m ->
  prop "type" rawMessage <> VString "interactive" ->
  Message.id m = prop "id" rawMessage
  /\ ((Message.type m = VString "text" /\ truthy (Message.text m) = true)
      \/ (Message.type m = VString "unknown" /\ Message.text m = VUndefined)).
Proof.
  intros Hm Ht.
  destruct (nullish rawMessage) eqn:H.
  { destruct rawMessage; discriminate. }
  rewrite (constructor_unfold _ H), (type_and_text_other _ H Ht), bind_ret in Hm.
  cbv zeta in Hm. cbn [outcome ret snd] in Hm. injection Hm as <-.
  split; [reflexivity |].
  destruct (truthy (prop "text" rawMessage)) eqn:Etext.
  - left. split; [reflexivity |]. cbn [Message.text snd].
    destruct (truthy (prop "body" (prop "text" rawMessage))) eqn:Eb; assumption.
  - destruct (truthy (prop "message" rawMessage)
              && truthy (prop "text" (prop "message" rawMessage))) eqn:Em.
    + left. split; [reflexivity |]. cbn [Message.text snd].
      apply andb_true_iff in Em. apply Em.
    + right. split; reflexivity.
Qed.

Lemma normalized_text_is_not_empty_witness :
  Message.id (Message.mk VUndefined (VString "text")
                (VObject [("body", VString "")]) VUndefined)
  = prop "id" Samples.empty_text_message
  /\ ((Message.type (Message.mk VUndefined (VString "text")
                       (VObject [("body", VString "")]) VUndefined)
       = VString "text"
       /\ truthy (Message.text (Message.mk VUndefined (VString "text")
                                  (VObject [("body", VString "")]) VUndefined))
          = true)
      \/ (Message.type (Message.mk VUndefined (VString "text")
                          (VObject [("body", VString "")]) VUndefined)
          = VString "unknown"
          /\ Message.text (Message.mk VUndefined (VString "text")
                             (VObject [("body", VString "")]) VUndefined)
             = VUndefined)).
Proof.
  apply (normalized_text_is_not_empty Samples.empty_text_message).
  - reflexivity.
  - discriminate.
Defined.

(* ================================================================== *)
(** * The outbound client *)
(* ================================================================== *)

Section ClientFacts.

Import GraphApi.

Variable World : Type.
Variable api_call : World -> request -> World * (value + value).
Variable Number_toString : spec_float -> string.

Ltac run_client :=
  unfold makeApiCall, template, try_catch, then_, read, sync, emit, call,
    resolve, reject, events_of, world_of, result_of;
  cbn [fst snd].

Ltac split_runs :=
  repeat match goal with
         | |- context [api_call ?w ?r] =>
             let w1 := fresh "w" in
             let resp := fresh "response" in
             let err := fresh "error" in
             destruct (api_call w r) as [w1 [resp | err]]; cbn
         | |- context [match get ?e ?k with _ => _ end] => destruct e; cbn
         | |- context [if truthy ?v then _ else _] => destruct (truthy v); cbn
         | |- context [match outcome (get ?e ?k) with _ => _ end] =>
             destruct e; cbn
         end.

(** X11.  [#makeApiCall] makes at most two requests, all of them [POST]
    requests to [/<senderId>/messages] on the instance of the platform,
    [senderId] being printed as the template literal prints it.  When
    there is a message id, the mark-as-read request comes first and the
    request that carries the body follows only if that one succeeded;
    without a message id, the request with the body is the only one.  No
    request at all is made when [senderId] cannot be printed (an object
    with a [toString] of its own), nor when there is a message id that
    cannot be printed. *)
Theorem makeApiCall_requests
  (messageId senderId requestBody : value) (p : platform) (w : World) :
  calls (events_of World
           (makeApiCall World api_call Number_toString
              messageId senderId requestBody p w))
  = match outcome (to_string Number_toString senderId) with
    | Throw _ => []
    | Normal sid =>
        let mark := mkCall (instance_of p) "POST" (messages_path sid)
                      (typingBody p messageId senderId) in
        let send := mkCall (instance_of p) "POST" (messages_path sid)
                      requestBody in
        if truthy messageId then
          match outcome (to_string Number_toString messageId) with
          | Throw _ => []
          | Normal _ =>
              match snd (api_call w mark) with
              | inl _ => [mark; send]
              | inr _ => [mark]
              end
          end
        else [send]
    end.
Proof.
  run_client.
  destruct (to_string Number_toString senderId) as [l1 [sid | e1]]; cbn;
    [| reflexivity].
  destruct (truthy messageId); cbn.
  - destruct (to_string Number_toString messageId) as [l2 [mid | e2]]; cbn;
      [split_runs; reflexivity | destruct e2; reflexivity].
  - split_runs; reflexivity.
Qed.

(** The run without a message id, and the run with one. *)
Lemma makeApiCall_settles_unmarked
  (messageId senderId requestBody : value) (p : platform) (w : World)
  (sid : string) :
  outcome (to_string Number_toString senderId) = Normal sid ->
  truthy messageId = false ->
  let send := mkCall (instance_of p) "POST" (messages_path sid) requestBody in
  let r := makeApiCall World api_call Number_toString
             messageId senderId requestBody p w in
  world_of World r = fst (api_call w send)
  /\ result_of World r
     = match snd (api_call w send) with
       | inl response => Fulfilled response
       | inr error =>
           match outcome (get error "message") with
           | Normal _ => Rejected (Thrown error)
           | Throw e => Rejected (Raised e)
           end
       end.
Proof.
  intros Hs Hm send r. subst send r. run_client. rewrite Hm.
  destruct (to_string Number_toString senderId) as [l1 [s1 | e1]];
    cbn in Hs; [injection Hs as -> | discriminate].
  cbn. split_runs; split; reflexivity.
Qed.

Lemma makeApiCall_settles_marked
  (messageId senderId requestBody : value) (p : platform) (w : World)
  (sid : string) :
  outcome (to_string Number_toString senderId) = Normal sid ->
  returns (to_string Number_toString messageId) = true ->
  truthy messageId = true ->
  let mark := mkCall (instance_of p) "POST" (messages_path sid)
                (typingBody p messageId senderId) in
  let send := mkCall (instance_of p) "POST" (messages_path sid) requestBody in
  let r := makeApiCall World api_call Number_toString
             messageId senderId requestBody p w in
  let rejected (error : value) : settled value :=
    match outcome (get error "message") with
    | Normal _ => Rejected (Thrown error)
    | Throw e => Rejected (Raised e)
    end in
  match snd (api_call w mark) with
  | inr error =>
      world_of World r = fst (api_call w mark)
      /\ result_of World r = rejected error
  | inl _ =>
      world_of World r = fst (api_call (fst (api_call w mark)) send)
      /\ result_of World r
         = match snd (api_call (fst (api_call w mark)) send) with
           | inl response => Fulfilled response
           | inr error => rejected error
           end
  end.
Proof.
  intros Hs Hp Hm mark send r rejected. subst mark send r rejected.
  run_client. rewrite Hm. unfold returns in Hp.
  destruct (to_string Number_toString senderId) as [l1 [s1 | e1]];
    cbn in Hs; [injection Hs as -> | discriminate].
  destruct (to_string Number_toString messageId) as [l2 [mid | e2]];
    cbn in Hp; [| discriminate].
  cbn. split_runs; split; reflexivity.
Qed.

(** X12.  When the ids can be printed, [#makeApiCall] adds nothing to what
    the API answers.  The promise is fulfilled with the response to the
    request that carries the body.  When a request fails with an error
    from which [message] can be read, the promise is rejected with that
    very error, the log lines of the [catch] block apart; when the API
    rejects with [undefined] or [null], the [catch] block itself throws on
    [error.message], and the promise is rejected with that [TypeError]
    instead.  A failed mark-as-read request ends the run: the body is not
    sent.  The state of the remote API is the one the requests left. *)
Theorem makeApiCall_passes_the_answer_on
  (messageId senderId requestBody : value) (p : platform) (w : World)
  (sid : string) :
  outcome (to_string Number_toString senderId) = Normal sid ->
  (truthy messageId = true ->
   returns (to_string Number_toString messageId) = true) ->
  let mark := mkCall (instance_of p) "POST" (messages_path sid)
                (typingBody p messageId senderId) in
  let send := mkCall (instance_of p) "POST" (messages_path sid) requestBody in
  let r := makeApiCall World api_call Number_toString
             messageId senderId requestBody p w in
  let rejected (error : value) : settled value :=
    match outcome (get error "message") with
    | Normal _ => Rejected (Thrown error)
    | Throw e => Rejected (Raised e)
    end in
  let answer (w0 : World) (q : request) :=
    world_of World r = fst (api_call w0 q)
    /\ result_of World r
       = match snd (api_call w0 q) with
         | inl response => Fulfilled response
         | inr error => rejected error
         end in
  if truthy messageId then
    match snd (api_call w mark) with
    | inr error =>
        world_of World r = fst (api_call w mark)
        /\ result_of World r = rejected error
    | inl _ => answer (fst (api_call w mark)) send
    end
  else answer w send.
Proof.
  intros Hs Hp mark send r rejected answer. subst answer rejected. cbv beta.
  destruct (truthy messageId) eqn:Hm.
  - apply (makeApiCall_settles_marked _ _ _ _ _ _ Hs (Hp eq_refl) Hm).
  - apply (makeApiCall_settles_unmarked _ _ _ _ _ _ Hs Hm).
Qed.

(** An id that cannot be printed: the template literal of the first log
    line throws, the one in the [catch] block throws again, and the promise
    is rejected with that error; nothing is requested or logged. *)
Lemma makeApiCall_unprintable_sender
  (messageId senderId requestBody : value) (p : platform) (w : World)
  (e : error) :
  outcome (to_string Number_toString senderId) = Throw e ->
  makeApiCall World api_call Number_toString messageId senderId requestBody p w
  = ([], w, Rejected (Raised e)).
Proof.
  intros Hs. run_client.
  destruct (to_string Number_toString senderId) as [l1 [s1 | e1]];
    cbn in Hs; [discriminate | injection Hs as ->].
  reflexivity.
Qed.

(** ** The request bodies *)

Lemma map_from_buttons (i : nat) (ctas : list value) :
  forallb (fun x => negb (nullish x)) ctas = true ->
  map_from (fun cta _ => reply_button cta) i ctas = ret (map button_of ctas).
Proof.
  revert i. induction ctas as [| cta ctas IH]; intros i H; [reflexivity |].
  cbn [forallb] in H. apply andb_true_iff in H as [Hc H].
  apply negb_true_iff in Hc. cbn [map_from map].
  unfold reply_button at 1. read_props. rewrite (IH _ H). reflexivity.
Qed.

Lemma returns_map_from_buttons (i : nat) (ctas : list value) :
  returns (map_from (fun cta _ => reply_button cta) i ctas)
  = forallb (fun x => negb (nullish x)) ctas.
Proof.
  revert i. induction ctas as [| cta ctas IH]; intros i; [reflexivity |].
  cbn [map_from forallb]. rewrite returns_bind.
  destruct (nullish cta) eqn:Hc.
  - destruct cta; try discriminate; reflexivity.
  - unfold reply_button. read_props. cbn [outcome ret snd negb andb].
    rewrite returns_bind, <- (IH (S i)). unfold returns at 2.
    destruct (outcome (map_from _ _ _)); reflexivity.
Qed.

(** X13.  The interactive reply carries one reply button per call to
    action, in the order given, each with the id and the title of its call
    to action; the request that carries them is the one [#makeApiCall]
    makes for WhatsApp. *)
Theorem interactive_reply_has_a_button_per_cta
  (messageId senderPhoneNumberId recipientPhoneNumber messageText : value)
  (ctas : list value) (w : World) :
  readable_array (VArray ctas) = true ->
  messageWithInteractiveReply World api_call Number_toString
    messageId senderPhoneNumberId recipientPhoneNumber messageText
    (VArray ctas) w
  = makeApiCall World api_call Number_toString
      messageId senderPhoneNumberId
      (interactive_body recipientPhoneNumber messageText
         (VArray (map button_of ctas)))
      whatsapp w.
Proof.
  intros H. unfold messageWithInteractiveReply, interactive_reply_body, array_map.
  rewrite (map_from_buttons _ _ H), !bind_ret.
  unfold sync, then_, resolve. cbn [outcome ret snd].
  destruct (makeApiCall _ _ _ _ _ _ _ _) as [[l w1] r]. reflexivity.
Qed.

Lemma destructure_nullish (options : value) (first : string) :
  nullish options = true -> returns (destructure options first) = false.
Proof. unfold destructure. intros ->. reflexivity. Qed.

Lemma sync_throws {A B} (m : M A) (k : A -> G World B) (w : World) :
  returns m = false ->
  exists e, then_ World (sync World m) k w = ([], w, Rejected (Raised e)).
Proof.
  unfold returns, sync, then_, reject. destruct (outcome m) as [a | e];
    [discriminate | eauto].
Qed.

(** X14.  When the request body cannot be built, nothing is sent: the
    promise is rejected with the engine's error, no request is made and
    nothing is logged.  That is the case of call-to-action lists that are
    not an array or hold [null] or [undefined], of template options that
    are [undefined] or [null], and of carousel options whose [imageLinks]
    is not an array. *)
Theorem unbuildable_body_sends_nothing
  (messageId senderPhoneNumberId recipientPhoneNumber : value) (w : World) :
  (forall messageText replyCTAs,
     readable_array replyCTAs = false ->
     exists e,
       messageWithInteractiveReply World api_call Number_toString
         messageId senderPhoneNumberId recipientPhoneNumber messageText
         replyCTAs w
       = ([], w, Rejected (Raised e)))
  /\ (forall (now : Z) (options : value),
        nullish options = true ->
        (exists e,
           messageWithUtilityTemplate World api_call Number_toString
             messageId senderPhoneNumberId recipientPhoneNumber options w
           = ([], w, Rejected (Raised e)))
        /\ (exists e,
              messageWithLimitedTimeOfferTemplate World api_call Number_toString
                now messageId senderPhoneNumberId recipientPhoneNumber options w
              = ([], w, Rejected (Raised e)))
        /\ (exists e,
              messageWithMediaCardCarousel World api_call Number_toString
                messageId senderPhoneNumberId recipientPhoneNumber options w
              = ([], w, Rejected (Raised e))))
  /\ (forall options,
        is_array (prop "imageLinks" options) = false ->
        exists e,
          messageWithMediaCardCarousel World api_call Number_toString
            messageId senderPhoneNumberId recipientPhoneNumber options w
          = ([], w, Rejected (Raised e))).
Proof.
  split; [| split].
  - intros messageText replyCTAs H. apply sync_throws.
    unfold interactive_reply_body. rewrite returns_bind.
    destruct replyCTAs; try reflexivity.
    cbn [array_map]. rewrite outcome_bind.
    cbn [readable_array] in H. rewrite <- (returns_map_from_buttons 0) in H.
    unfold returns in H. destruct (outcome (map_from _ _ _)); [discriminate |].
    reflexivity.
  - intros now options H.
    repeat split; apply sync_throws;
      unfold utility_template_body, limited_time_offer_body,
        media_card_carousel_body;
      rewrite returns_bind; unfold destructure; rewrite H; reflexivity.
  - intros options H. apply sync_throws.
    unfold media_card_carousel_body, destructure.
    destruct (nullish options); [reflexivity |]. rewrite bind_ret, returns_bind.
    destruct (prop "imageLinks" options); try discriminate; reflexivity.
Qed.

Lemma map_from_cards (i : nat) (links : list value) :
  exists cards,
    map_from (fun imageLink idx => ret (carousel_card imageLink idx)) i links
    = ret cards
    /\ List.length cards = List.length links
    /\ forall (k : nat) (link : value),
         nth_error links k = Some link ->
         nth_error cards k = Some (carousel_card link (i + k)).
Proof.
  revert i. induction links as [| x links IH]; intros i.
  - exists []. repeat split. intros [| k] link H; discriminate.
  - destruct (IH (S i)) as (cards & Hrun & Hlen & Hnth).
    exists (carousel_card x i :: cards). cbn [map_from].
    rewrite bind_ret, Hrun, bind_ret. repeat split.
    + cbn [List.length]. rewrite Hlen. reflexivity.
    + intros [| k] link H; cbn [nth_error] in *.
      * injection H as <-. rewrite Nat.add_0_r. reflexivity.
      * rewrite (Hnth k link H). f_equal. f_equal. lia.
Qed.

(** X15.  The carousel has one card per image link, in the order given,
    and the card at position [k] (counted from zero) has [card_index] [k]
    and the [k]-th link as its header image. *)
Theorem carousel_cards_are_indexed
  (messageId senderPhoneNumberId recipientPhoneNumber options : value)
  (links : list value) (w : World) :
  nullish options = false ->
  prop "imageLinks" options = VArray links ->
  exists cards,
    messageWithMediaCardCarousel World api_call Number_toString
      messageId senderPhoneNumberId recipientPhoneNumber options w
    = makeApiCall World api_call Number_toString
        messageId senderPhoneNumberId
        (carousel_body recipientPhoneNumber
           (prop "templateName" options) (prop "locale" options)
           (VArray cards))
        whatsapp w
    /\ List.length cards = List.length links
    /\ forall (k : nat) (link : value),
         nth_error links k = Some link ->
         nth_error cards k = Some (carousel_card link k).
Proof.
  intros Ho Hl. destruct (map_from_cards 0 links) as (cards & Hrun & Hlen & Hnth).
  exists cards. split; [| split; [exact Hlen | exact Hnth]].
  unfold messageWithMediaCardCarousel, media_card_carousel_body, destructure.
  rewrite Ho, bind_ret, Hl. cbn [array_map]. rewrite Hrun, !bind_ret.
  unfold sync, then_, resolve. cbn [outcome ret snd].
  destruct (makeApiCall _ _ _ _ _ _ _ _) as [[l w1] r]. reflexivity.
Qed.

(** X16.  The two Instagram methods make exactly one request when
    [senderPageId] can be printed, and none when it cannot (an object with
    a [toString] of its own): a [POST] to [/<senderPageId>/messages] on the
    Instagram instance, never preceded by a mark-as-read request.  The text
    message names the recipient and the text, and it carries
    [messaging_type] "MESSAGE_TAG" and the tag exactly when a truthy tag is
    given. *)
Theorem instagram_methods_make_one_request
  (senderPageId recipientId text tag : value) (w : World) :
  let body := instagram_text_body recipientId text tag in
  let requests (requestBody : value) :=
    match outcome (to_string Number_toString senderPageId) with
    | Normal sid => [mkCall instagramApi "POST" (messages_path sid) requestBody]
    | Throw _ => []
    end in
  calls (events_of World
           (sendInstagramTextMessage World api_call Number_toString
              senderPageId recipientId text tag w))
  = requests body
  /\ prop "recipient" body = VObject [("id", recipientId)]
  /\ prop "message" body = VObject [("text", text)]
  /\ prop "messaging_type" body
     = (if truthy tag then VString "MESSAGE_TAG" else VUndefined)
  /\ prop "tag" body = (if truthy tag then tag else VUndefined)
  /\ calls (events_of World
              (markInstagramMessageAsRead World api_call Number_toString
                 senderPageId recipientId w))
     = requests (VObject [("recipient", VObject [("id", recipientId)]);
                          ("sender_action", VString "mark_read")]).
Proof.
  intros body requests. subst body requests. cbv beta.
  unfold sendInstagramTextMessage, markInstagramMessageAsRead.
  repeat split.
  - run_client.
    destruct (to_string Number_toString senderPageId) as [l1 [sid | e1]]; cbn;
      split_runs; reflexivity.
  - unfold instagram_text_body. destruct (truthy tag); reflexivity.
  - unfold instagram_text_body. destruct (truthy tag); reflexivity.
  - run_client.
    destruct (to_string Number_toString senderPageId) as [l1 [sid | e1]]; cbn;
      split_runs; reflexivity.
Qed.

End ClientFacts.

(** ** The client on the sample APIs *)

Lemma interactive_reply_has_a_button_per_cta_witness :
  GraphApi.calls
    (GraphApi.events_of nat
       (GraphApi.messageWithInteractiveReply nat ClientSamples.accepting
          ClientSamples.no_numbers
          VNull (VString "555") (VString "15550001111") (VString "Choose")
          ClientSamples.two_buttons O))
  = [GraphApi.mkCall GraphApi.whatsappApi "POST"
       [VString "555"; VString "messages"]
       (GraphApi.interactive_body (VString "15550001111") (VString "Choose")
          (VArray
             [VObject [("type", VString "reply");
                       ("reply", VObject [("id", VString "BUY_NOW");
                                          ("title", VString "Buy now")])];
              VObject [("type", VString "reply");
                       ("reply", VObject [("id", VString "LATER");
                                          ("title", VString "Later")])]]))].
Proof.
  unfold ClientSamples.two_buttons.
  rewrite (interactive_reply_has_a_button_per_cta nat ClientSamples.accepting
             ClientSamples.no_numbers)
    by reflexivity.
  reflexivity.
Defined.

Lemma carousel_cards_are_indexed_witness :
  exists cards,
    GraphApi.messageWithMediaCardCarousel nat ClientSamples.accepting
      ClientSamples.no_numbers
      VNull (VString "555") (VString "15550001111")
      ClientSamples.carousel_options O
    = GraphApi.makeApiCall nat ClientSamples.accepting ClientSamples.no_numbers
        VNull (VString "555")
        (GraphApi.carousel_body (VString "15550001111")
           (prop "templateName" ClientSamples.carousel_options)
           (prop "locale" ClientSamples.carousel_options)
           (VArray cards))
        GraphApi.whatsapp O
    /\ List.length cards = 2%nat
    /\ forall (k : nat) (link : value),
         nth_error [VString "https://example.com/a.png";
                    VString "https://example.com/b.png"] k = Some link ->
         nth_error cards k = Some (GraphApi.carousel_card link k).
Proof.
  apply (carousel_cards_are_indexed nat ClientSamples.accepting
           ClientSamples.no_numbers
           VNull (VString "555") (VString "15550001111")
           ClientSamples.carousel_options
           [VString "https://example.com/a.png";
            VString "https://example.com/b.png"] O);
    reflexivity.
Defined.

(** With a message id and an API that refuses the first request, the
    message itself is never sent and the API's error comes back. *)
Example refused_mark_as_read_stops_the_send :
  GraphApi.makeApiCall nat ClientSamples.refusing_first ClientSamples.no_numbers
    (VString "wamid.1") (VString "555") (VObject [("type", VString "text")])
    GraphApi.whatsapp O
  = ([GraphApi.console_log
        [GraphApi.Text "[WHATSAPP] Making API call to: /555/messages"];
      GraphApi.console_log
        [GraphApi.Text "[WHATSAPP] Marking message wamid.1 as read..."];
      GraphApi.Call
        (GraphApi.mkCall GraphApi.whatsappApi "POST"
           [VString "555"; VString "messages"]
           (VObject [("messaging_product", VString "whatsapp");
                     ("status", VString "read");
                     ("message_id", VString "wamid.1")]));
      GraphApi.console_error
        [GraphApi.Text "[WHATSAPP] Error making API call to /555/messages:";
         GraphApi.Val (VString "Invalid OAuth access token")];
      GraphApi.console_error
        [GraphApi.Text "[WHATSAPP] Meta Error Response:";
         GraphApi.Json (VObject [("code", VString "190")])]],
     1%nat,
     GraphApi.Rejected
       (GraphApi.Thrown
          (VObject [("message", VString "Invalid OAuth access token");
                    ("response", VObject [("code", VString "190")])]))).
Proof. reflexivity. Qed.

Lemma makeApiCall_passes_the_answer_on_witness :
  GraphApi.result_of nat
    (GraphApi.makeApiCall nat ClientSamples.refusing_first
       ClientSamples.no_numbers
       (VString "wamid.1") (VString "555") (VObject [("type", VString "text")])
       GraphApi.whatsapp O)
  = GraphApi.Rejected
      (GraphApi.Thrown
         (VObject [("message", VString "Invalid OAuth access token");
                   ("response", VObject [("code", VString "190")])])).
Proof.
  exact (proj2 (makeApiCall_passes_the_answer_on nat ClientSamples.refusing_first
                  ClientSamples.no_numbers
                  (VString "wamid.1") (VString "555")
                  (VObject [("type", VString "text")])
                  GraphApi.whatsapp O "555" eq_refl (fun _ => eq_refl))).
Defined.

(** An API that rejects with [null]: the [catch] block throws on
    [error.message] before it logs, and the caller gets that [TypeError],
    not the [null]. *)
Example null_rejection_is_replaced :
  GraphApi.makeApiCall nat ClientSamples.rejecting_with_null
    ClientSamples.no_numbers
    VNull (VString "555") (VObject [("type", VString "text")])
    GraphApi.whatsapp O
  = ([GraphApi.console_log
        [GraphApi.Text "[WHATSAPP] Making API call to: /555/messages"];
      GraphApi.Call
        (GraphApi.mkCall GraphApi.whatsappApi "POST"
           [VString "555"; VString "messages"]
           (VObject [("type", VString "text")]))],
     1%nat,
     GraphApi.Rejected
       (GraphApi.Raised
          (TypeError "Cannot read properties of null (reading 'message')"))).
Proof. reflexivity. Qed.

(** A sender id that is an object with a [toString] of its own: nothing is
    requested and nothing is logged. *)
Example unprintable_sender_sends_nothing :
  GraphApi.makeApiCall nat ClientSamples.accepting ClientSamples.no_numbers
    VNull (VObject [("toString", VString "x")])
    (VObject [("type", VString "text")]) GraphApi.whatsapp O
  = ([], O,
     GraphApi.Rejected
       (GraphApi.Raised (TypeError "Cannot convert object to primitive value"))).
Proof. reflexivity. Qed.

Example instagram_text_without_tag :
  GraphApi.calls
    (GraphApi.events_of nat
       (GraphApi.sendInstagramTextMessage nat ClientSamples.accepting
          ClientSamples.no_numbers
          (VString "98765") (VString "777") (VString "hello") VNull O))
  = [GraphApi.mkCall GraphApi.instagramApi "POST"
       [VString "98765"; VString "messages"]
       (VObject [("recipient", VObject [("id", VString "777")]);
                 ("message", VObject [("text", VString "hello")])])].
Proof. reflexivity. Qed.

(** ** The verifier: what follows a second equals sign *)

(** X17.  Only the piece between the first and the second equals sign of the
    header is compared: whatever follows a second equals sign is ignored,
    so [prefix=digest=anything] is verified exactly as [prefix=digest]. *)
Theorem text_after_second_equals_sign_is_ignored
  (cfg : config) (req1 req2 : request) (buf prefix digest trailer : string) :
  Spec.free_of equals_sign prefix = true ->
  Spec.free_of equals_sign digest = true ->
  header "x-hub-signature-256" (headers req1)
  = Some (prefix ++ "=" ++ digest)%string ->
  header "x-hub-signature-256" (headers req2)
  = Some (prefix ++ "=" ++ digest ++ "=" ++ trailer)%string ->
  verifyRequestSignature cfg req1 buf = verifyRequestSignature cfg req2 buf.
Proof.
  intros Hp Hd H1 H2.
  apply (verify_reads_signatureHash cfg req1 req2 buf _ _ H1 H2);
    try apply prefixed_not_empty.
  rewrite !signatureHash_prefix by assumption.
  change ("=" ++ trailer)%string with (String equals_sign trailer).
  rewrite (split_at_first _ _ _ Hd), (split_free _ _ Hd). reflexivity.
Qed.

Lemma text_after_second_equals_sign_is_ignored_witness :
  verifyRequestSignature Samples.two_secrets Samples.signed_sha256_prefix "{}"
  = verifyRequestSignature Samples.two_secrets
      (mkRequest
         [("x-hub-signature-256",
           "sha256=d3bcb03fd921378bcebcb82a3a816fa98bc2f0da108f86196b35827d56dedf89=zz")]
         "{}")
      "{}".
Proof.
  apply (text_after_second_equals_sign_is_ignored
           Samples.two_secrets Samples.signed_sha256_prefix
           (mkRequest
              [("x-hub-signature-256",
                "sha256=d3bcb03fd921378bcebcb82a3a816fa98bc2f0da108f86196b35827d56dedf89=zz")]
              "{}")
           "{}" "sha256"
           "d3bcb03fd921378bcebcb82a3a816fa98bc2f0da108f86196b35827d56dedf89"
           "zz");
    reflexivity.
Defined.
